(** * pyramid_saml2: the Identity Provider core

    A shallow embedding of [pyramid_saml2/idp/idp.py] (the
    [IdentityProvider] class) and [pyramid_saml2/idp/views.py] (the
    [login_begin], [login_process] and [logout] views), and the properties
    of the handler-resolution loop, the signing policy, the name-id mapping
    and the begin/process/logout steps.

    Python values are an inductive type, dictionaries are [gmap string _],
    exceptions are values of a result type, and the views run in a small
    monad that threads the session and records the calls made to the
    host-supplied objects. *)

From Stdlib Require Import String List Bool Arith Lia.
From stdpp Require Import base option list gmap strings fin_maps.

Open Scope string_scope.
Open Scope list_scope.

(** ** Python values, exceptions and results *)

(** The Python values the views and the configuration hold. [VCert] and
    [VKey] are the opaque handles of [pyramid_saml2.types] ([X509], [PKey]),
    named by their PEM text; [VIdp] is the [IdentityProvider] instance of
    the current request. *)
Inductive pyval : Type :=
  | VNone
  | VBool (b : bool)
  | VStr (s : string)
  | VCert (pem : string)
  | VKey (pem : string)
  | VIdp.

#[global] Instance pyval_eq_dec : EqDecision pyval.
Proof. solve_decision. Defined.

(** [v is not None] *)
Definition is_not_None (v : pyval) : bool :=
  match v with VNone => false | _ => true end.

(** [d.get(k)]: the value, or [None] when the key is absent. *)
Definition dict_get (d : gmap string pyval) (k : string) : pyval :=
  default VNone (d !! k).

(** [d.get(k, dflt)] *)
Definition dict_get_default {A} (d : gmap string A) (k : string) (dflt : A)
    : A :=
  default dflt (d !! k).

(** [{"idp": idp, **context}]: the keys of [context] override ["idp"]. *)
Definition with_idp (context : gmap string pyval) : gmap string pyval :=
  context ∪ {[ "idp" := VIdp ]}.

Module Exceptions.

(** An exception instance: its class, the proper ancestors of the class
    (what [except] and [isinstance] look at) and its message. *)
Record exn : Type := Exn {
  exn_class : string;
  exn_bases : list string;
  exn_msg : string
}.

#[global] Instance exn_eq_dec : EqDecision exn.
Proof. solve_decision. Defined.

Definition isinstance (e : exn) (cls : string) : bool :=
  bool_decide (cls = exn_class e) || bool_decide (cls ∈ exn_bases e).

Definition builtin_bases : list string := ["Exception"; "BaseException"].

(** [pyramid_saml2.exceptions] *)
Definition CannotHandleAssertion (msg : string) : exn :=
  Exn "CannotHandleAssertion" builtin_bases msg.
Definition UserNotAuthorized (msg : string) : exn :=
  Exn "UserNotAuthorized" builtin_bases msg.

(** Modelled from the spec: [UnsupportedAttribute] is the error class the
    specification names for an unmapped name-id format; no source file
    defines or raises it. *)
Definition UnsupportedAttribute (msg : string) : exn :=
  Exn "UnsupportedAttribute" builtin_bases msg.

(** Python built-ins *)
Definition ValueError (msg : string) : exn :=
  Exn "ValueError" builtin_bases msg.
Definition UnicodeDecodeError (msg : string) : exn :=
  Exn "UnicodeDecodeError" ("UnicodeError" :: "ValueError" :: builtin_bases) msg.
Definition NotImplementedError (msg : string) : exn :=
  Exn "NotImplementedError" ("RuntimeError" :: builtin_bases) msg.
Definition NameError (msg : string) : exn :=
  Exn "NameError" builtin_bases msg.
Definition KeyError (msg : string) : exn :=
  Exn "KeyError" ("LookupError" :: builtin_bases) msg.
Definition ImportError (msg : string) : exn :=
  Exn "ImportError" builtin_bases msg.

(** [pyramid.httpexceptions.HTTPFound], raised as an exception; the
    message is the location. *)
Definition HTTPFound_exc (location : string) : exn :=
  Exn "HTTPFound" ("HTTPRedirection" :: "HTTPException" :: builtin_bases) location.

End Exceptions.
Export Exceptions.

(** The outcome of a call: a value, or a raised exception. *)
Inductive result (A : Type) : Type :=
  | Ok (a : A)
  | Raise (e : exn).
Arguments Ok {A} a.
Arguments Raise {A} e.

Definition is_ok {A} (r : result A) : bool :=
  match r with Ok _ => true | Raise _ => false end.

Definition result_bind {A B} (r : result A) (f : A -> result B) : result B :=
  match r with Ok a => f a | Raise e => Raise e end.

(** ** The calls a view makes to host-supplied objects *)

Inductive method : Type :=
  | MParse               (* handler.parse_authn_request *)
  | MMakeResponse        (* handler.make_response *)
  | MGetResponseContext  (* handler.get_response_context *)
  | MIsValidRedirect.    (* handler.is_valid_redirect *)

#[global] Instance method_eq_dec : EqDecision method.
Proof. solve_decision. Defined.

(** [ok] tells whether the call returned ([true]) or raised ([false]);
    handlers are numbered by their position in the configuration. *)
Inductive event : Type :=
  | EvLoginRequired (ok : bool)         (* idp.login_required() *)
  | EvLogout (ok : bool)                (* idp.logout() *)
  | EvConstruct (i : nat) (ok : bool)   (* get_sp_handlers yields handler i *)
  | EvCall (i : nat) (m : method) (ok : bool)
  | EvLogException (i : nat).           (* logger.exception(..., handler) *)

#[global] Instance event_eq_dec : EqDecision event.
Proof. solve_decision. Defined.

(** The handler an event belongs to, if any. *)
Definition event_handler (ev : event) : option nat :=
  match ev with
  | EvConstruct i _ | EvCall i _ _ | EvLogException i => Some i
  | EvLoginRequired _ | EvLogout _ => None
  end.

(** ** The monad of the views: session state, exceptions, call log *)

Abbreviation Session := (gmap string pyval).

Definition M (A : Type) : Type := Session -> result A * Session * list event.

Definition ret {A} (a : A) : M A := fun s => (Ok a, s, []).
Definition raise {A} (e : exn) : M A := fun s => (Raise e, s, []).
Definition bind {A B} (m : M A) (f : A -> M B) : M B :=
  fun s =>
    match m s with
    | (Ok a, s1, t1) =>
        match f a s1 with (r, s2, t2) => (r, s2, t1 ++ t2) end
    | (Raise e, s1, t1) => (Raise e, s1, t1)
    end.

Notation "'do' x <- m ;; k" := (bind m (fun x => k))
  (at level 10, x name, m at level 99, k at level 200).
Notation "'exec' m ;; k" := (bind m (fun _ => k))
  (at level 10, m at level 99, k at level 200).

Definition tell (ev : event) : M unit := fun s => (Ok tt, s, [ev]).
(** A call of method [m] of handler [i] whose outcome is [r]. *)
Definition call {A} (i : nat) (m : method) (r : result A) : M A :=
  fun s => (r, s, [EvCall i m (is_ok r)]).
Definition get_session : M Session := fun s => (Ok s, s, []).
Definition session_set (k : string) (v : pyval) : M unit :=
  fun s => (Ok tt, <[k := v]> s, []).

(** [try: m  except (classes): handler  else: k]: an exception of [m] that
    [caught] accepts runs [handler]; any other propagates; [k] runs outside
    the guarded block. *)
Definition try_except_else {A B} (m : M A) (caught : exn -> bool)
    (handler : exn -> M B) (k : A -> M B) : M B :=
  fun s =>
    match m s with
    | (Ok a, s1, t1) =>
        match k a s1 with (r, s2, t2) => (r, s2, t1 ++ t2) end
    | (Raise e, s1, t1) =>
        if caught e
        then match handler e s1 with (r, s2, t2) => (r, s2, t1 ++ t2) end
        else (Raise e, s1, t1)
    end.

(** Projections of a run. *)
Definition outcome {A} (x : result A * Session * list event)
    : result A := x.1.1.
Definition session_after {A} (x : result A * Session * list event)
    : Session := x.1.2.
Definition events {A} (x : result A * Session * list event)
    : list event := x.2.

(** ** Data model *)

(** The host application's user object; [examples/idp.py] has [username]
    and [email]. *)
Record User : Type := {
  username : string;
  email : string
}.

(** The HTTP request as the views use it: [request.params] and
    [request.route_url]. [request.session] is the state of the monad [M]. *)
Record Request : Type := {
  params : gmap string string;
  route_url : string -> string
}.

(** Modelled from the spec: the parsed request and the built response of
    [pyramid_saml2/idp/sphandler.py], which is not among the sources. The
    views pass them from one handler method to the next without looking
    inside. *)
Record AuthnRequest : Type := {
  issuer : string;
  acs_url : string;
  nameid_format : string;
  request_id : string
}.

Record Response : Type := {
  response_xml : string;
  response_signed : bool
}.

(** The methods of [SPHandler] the IdP calls. The class lives in
    [pyramid_saml2/idp/sphandler.py] and its variants in the host
    application, so every handler is a parameter: a record of its methods,
    each returning or raising. *)
Module SPHandler.
Record t : Type := {
  parse_authn_request : pyval -> result AuthnRequest;
  make_response : AuthnRequest -> result Response;
  get_response_context :
    AuthnRequest -> Response -> pyval -> result (gmap string pyval);
  is_valid_redirect : string -> result bool
}.
End SPHandler.

(** One entry of [SAML2_SERVICE_PROVIDERS]: a dict with the key ['CLASS']
    and, optionally, ['OPTIONS']. *)
Record ServiceProviderConfig : Type := {
  CLASS : option string;
  OPTIONS : option (gmap string pyval)
}.

(** [request.registry.settings] *)
Record Settings : Type := {
  SAML2_IDP : gmap string pyval;
  SAML2_SERVICE_PROVIDERS : list ServiceProviderConfig
}.

(** [Signer]: the signing class named by [idp_signer_class], bound to a key. *)
Record Signer : Type := {
  signer_class : string;
  signer_key : pyval
}.

(** ** [pyramid_saml2/idp/idp.py] *)
Module IdentityProvider.

(** What a subclass of [IdentityProvider] supplies: the four methods the
    base class leaves unimplemented, and the two class attributes. *)
Record cls : Type := {
  login_required_impl : Request -> Session -> result unit;
  is_user_logged_in_impl : Request -> Session -> result bool;
  logout_impl : Request -> Session -> result Session;
  get_current_user_impl : Request -> Session -> result User;
  idp_digester_class : string;
  idp_signer_class : string
}.

(** The base class itself. *)
Definition base : cls := {|
  login_required_impl := fun _ _ => Raise (NotImplementedError "");
  is_user_logged_in_impl := fun _ _ => Raise (NotImplementedError "");
  logout_impl := fun _ _ => Raise (NotImplementedError "");
  get_current_user_impl := fun _ _ => Raise (NotImplementedError "");
  idp_digester_class := "Sha1Digester";
  idp_signer_class := "RsaSha1Signer"
|}.

(** An instance: [idp_cls(request)], with the registry settings it reads. *)
Record t : Type := {
  class_of : cls;
  settings : Settings;
  request : Request
}.

(** A handler class, as [import_string] returns it: [cls(idp, **options)]
    builds the handler or raises. The handler keeps a reference to the
    IdP, and through it to the session, hence the [Session] argument. *)
Definition handler_class : Type :=
  t -> Session -> gmap string pyval -> result SPHandler.t.

Definition get_idp_config (self : t) : gmap string pyval :=
  SAML2_IDP (settings self).

Definition get_idp_certificate (self : t) : pyval :=
  dict_get (get_idp_config self) "certificate".

Definition get_idp_private_key (self : t) : pyval :=
  dict_get (get_idp_config self) "private_key".

Definition should_sign_responses (self : t) : bool :=
  is_not_None (get_idp_certificate self)
  && is_not_None (get_idp_private_key self).

Definition get_idp_autosubmit (self : t) : pyval :=
  dict_get_default (get_idp_config self) "autosubmit" (VBool false).

(** Falling off the end of the method returns [None]. *)
Definition get_idp_signer (self : t) : option Signer :=
  let private_key := get_idp_private_key self in
  if is_not_None private_key
  then Some {| signer_class := idp_signer_class (class_of self);
               signer_key := private_key |}
  else None.

Definition get_idp_digester (self : t) : string :=
  idp_digester_class (class_of self).

Definition get_service_providers (self : t) : list ServiceProviderConfig :=
  SAML2_SERVICE_PROVIDERS (settings self).

Definition get_sso_url (self : t) : string :=
  route_url (request self) "pyramid_saml2_idp_login_begin".
Definition get_slo_url (self : t) : string :=
  route_url (request self) "pyramid_saml2_idp_logout".
Definition get_metadata_url (self : t) : string :=
  route_url (request self) "pyramid_saml2_idp_metadata".
Definition get_idp_entity_id (self : t) : string :=
  get_metadata_url self.

(** Authentication: the calls are logged, the session is read, and only
    [logout] replaces it. *)
Definition login_required (self : t) : M unit :=
  fun s =>
    let r := login_required_impl (class_of self) (request self) s in
    (r, s, [EvLoginRequired (is_ok r)]).

Definition logout (self : t) : M unit :=
  fun s =>
    match logout_impl (class_of self) (request self) s with
    | Ok s' => (Ok tt, s', [EvLogout true])
    | Raise e => (Raise e, s, [EvLogout false])
    end.

Definition get_user_email (self : t) (user : User) : result string :=
  Ok (email user).

Definition emailAddress_urn : string :=
  "urn:oasis:names:tc:SAML:2.0:nameid-format:emailAddress".

Definition get_user_nameid (self : t) (user : User) (attribute : string)
    : result string :=
  if String.eqb attribute emailAddress_urn
  then get_user_email self user
  else Raise (NotImplementedError
                ("Can't fetch attribute " +:+ attribute +:+ " from user")).

Section Handlers.
(** [pyramid_saml2.utils.import_string]: the class at a dotted path. *)
Variable import_string : string -> result handler_class.

(** The generator of [get_sp_handlers]: element [i] is what pulling the
    [i]-th handler gives, the handler or the exception that ends the
    generator. Nothing is built before the consumer asks for it; the
    consumers below log each pull as [EvConstruct]. *)
Definition get_sp_handlers (self : t) (s : Session)
    : list (result SPHandler.t) :=
  map (fun config =>
         match CLASS config with
         | None => Raise (KeyError "'CLASS'")
         | Some path =>
             result_bind (import_string path) (fun c =>
               let options := default ∅ (OPTIONS config) in
               c self s options)
         end)
      (get_service_providers self).

(** [any(handler.is_valid_redirect(url) for handler in ...)]: stops at
    the first handler that accepts. *)
Fixpoint any_is_valid_redirect (i : nat) (gen : list (result SPHandler.t))
    (url : string) : M bool :=
  match gen with
  | [] => ret false
  | Raise e :: _ => exec tell (EvConstruct i false) ;; raise e
  | Ok handler :: rest =>
      exec tell (EvConstruct i true) ;;
      do b <- call i MIsValidRedirect
                (SPHandler.is_valid_redirect handler url) ;;
      if b : bool then ret true else any_is_valid_redirect (S i) rest url
  end.

Definition is_valid_redirect (self : t) (url : string) : M bool :=
  do s <- get_session ;;
  any_is_valid_redirect 0 (get_sp_handlers self s) url.
End Handlers.

End IdentityProvider.

(** ** [pyramid_saml2/idp/views.py] *)
Module views.

(** What a view returns: a plain string, an [HTTPFound] redirect, or a
    dict for the view's renderer. *)
Inductive view_result : Type :=
  | RStr (body : string)
  | RFound (location : string)
  | RContext (context : gmap string pyval).

(** [request.registry]: the IdP class under ['saml2_idp_cls'] and the
    settings. *)
Record Registry : Type := {
  saml2_idp_cls : IdentityProvider.cls;
  registry_settings : Settings
}.

(** [request.registry['saml2_idp_cls'](request)] *)
Definition new_idp (registry : Registry) (request : Request)
    : IdentityProvider.t :=
  {| IdentityProvider.class_of := saml2_idp_cls registry;
     IdentityProvider.settings := registry_settings registry;
     IdentityProvider.request := request |}.

(** Truth value of a [str]. *)
Definition str_bool (s : string) : bool :=
  match s with EmptyString => false | String _ _ => true end.

(** [except (CannotHandleAssertion, ValueError)] *)
Definition caught (e : exn) : bool :=
  isinstance e "CannotHandleAssertion" || isinstance e "ValueError".

Definition login_begin (request : Request) : M view_result :=
  match params request !! "SAMLRequest" with
  | None => ret (RStr "SAMLRequest is missing")
  | Some saml_request =>
      if str_bool saml_request then
        exec session_set "SAMLRequest" (VStr saml_request) ;;
        exec session_set "RelayState"
               (VStr (dict_get_default (params request) "RelayState" "")) ;;
        ret (RFound (route_url request "pyramid_saml2_idp_login_process"))
      else ret (RStr "SAMLRequest is missing")
  end.

(** The body of the [try] block for handler [i]. *)
Definition trial (i : nat) (handler : SPHandler.t)
    (saml_request relay_state : pyval) : M (gmap string pyval) :=
  do request <- call i MParse
                  (SPHandler.parse_authn_request handler saml_request) ;;
  do response <- call i MMakeResponse
                   (SPHandler.make_response handler request) ;;
  call i MGetResponseContext
    (SPHandler.get_response_context handler request response relay_state).

(** What the three calls of a trial come to, without the log. *)
Definition trial_result (handler : SPHandler.t)
    (saml_request relay_state : pyval) : result (gmap string pyval) :=
  result_bind (SPHandler.parse_authn_request handler saml_request)
    (fun request =>
       result_bind (SPHandler.make_response handler request)
         (fun response =>
            SPHandler.get_response_context
              handler request response relay_state)).

(** The calls a trial of handler [i] makes, in order: it stops at the
    first one that raises. *)
Definition trial_log (i : nat) (handler : SPHandler.t)
    (saml_request relay_state : pyval) : list event :=
  match SPHandler.parse_authn_request handler saml_request with
  | Raise _ => [EvCall i MParse false]
  | Ok request =>
      EvCall i MParse true ::
      match SPHandler.make_response handler request with
      | Raise _ => [EvCall i MMakeResponse false]
      | Ok response =>
          [EvCall i MMakeResponse true;
           EvCall i MGetResponseContext
             (is_ok (SPHandler.get_response_context
                       handler request response relay_state))]
      end
  end.

(** The generator yields a handler, and that handler's trial raises an
    exception the [except] clause catches. *)
Definition falls_through (r : result SPHandler.t)
    (saml_request relay_state : pyval) : Prop :=
  exists handler e,
    r = Ok handler
    /\ trial_result handler saml_request relay_state = Raise e
    /\ caught e = true.

(** Handlers [0 .. n-1] of the generator are yielded and fall through. *)
Definition prefix_falls_through (gen : list (result SPHandler.t))
    (saml_request relay_state : pyval) (n : nat) : Prop :=
  forall m, m < n ->
    exists r, gen !! m = Some r /\ falls_through r saml_request relay_state.

Definition no_handler_msg : string :=
  "No Service Provider handlers could handle this SAML request".

(** The [for handler in idp.get_sp_handlers()] loop of [login_process],
    from handler [i] on, and the [raise] that follows it. *)
Fixpoint login_process_loop (i : nat) (gen : list (result SPHandler.t))
    (saml_request relay_state : pyval) : M view_result :=
  match gen with
  | [] => raise (CannotHandleAssertion no_handler_msg)
  | Raise e :: _ => exec tell (EvConstruct i false) ;; raise e
  | Ok handler :: rest =>
      exec tell (EvConstruct i true) ;;
      try_except_else (trial i handler saml_request relay_state) caught
        (fun _ =>
           exec tell (EvLogException i) ;;
           login_process_loop (S i) rest saml_request relay_state)
        (fun context => ret (RContext (with_idp context)))
  end.

Section WithRegistry.
Variable import_string : string -> result IdentityProvider.handler_class.
Variable registry : Registry.

Definition login_process (request : Request) : M view_result :=
  let idp := new_idp registry request in
  exec IdentityProvider.login_required idp ;;
  do session <- get_session ;;
  match session !! "SAMLRequest" with
  | None => ret (RStr "SAMLRequest is misssing")
  | Some saml_request =>
      match session !! "RelayState" with
      | None => ret (RStr "RelayState is missing")
      | Some relay_state =>
          login_process_loop 0
            (IdentityProvider.get_sp_handlers import_string idp session)
            saml_request relay_state
      end
  end.

(** The [for arg in ['RelayState', 'redirect_to']] loop of [logout] and
    the [return] that follows it: the name [context] is bound nowhere in
    the function or the module. *)
Fixpoint logout_loop (idp : IdentityProvider.t) (request : Request)
    (args : list string) : M view_result :=
  match args with
  | [] => raise (NameError "name 'context' is not defined")
  | arg :: rest =>
      match params request !! arg with
      | None => logout_loop idp request rest
      | Some redirect_url =>
          if str_bool redirect_url then
            do ok <- IdentityProvider.is_valid_redirect
                       import_string idp redirect_url ;;
            if ok : bool then ret (RFound redirect_url)
            else logout_loop idp request rest
          else logout_loop idp request rest
      end
  end.

Definition logout (request : Request) : M view_result :=
  let idp := new_idp registry request in
  exec IdentityProvider.login_required idp ;;
  exec IdentityProvider.logout idp ;;
  logout_loop idp request ["RelayState"; "redirect_to"].
End WithRegistry.

End views.

(** ** The example application, [examples/idp.py] *)
Module Example.
Import views.

Definition alex : User :=
  {| username := "alex"; email := "alex@example.com" |}.
Definition jordan : User :=
  {| username := "jordan"; email := "jordan@example.com" |}.

Definition users : gmap string User :=
  <["alex" := alex]> (<["jordan" := jordan]> ∅).

(** ['user' in session and session['user'] in users] *)
Definition is_user_logged_in (s : Session) : bool :=
  match s !! "user" with
  | Some (VStr name) => bool_decide (is_Some (users !! name))
  | _ => false
  end.

(** The IdP class of the example. The location of the login redirect is
    the URL of the login route alone; [ExampleApp.ExampleIdentityProvider]
    below takes the URL with its [next] query as the source builds it. *)
Definition ExampleIdentityProvider : IdentityProvider.cls := {|
  IdentityProvider.login_required_impl := fun request s =>
    if is_user_logged_in s then Ok tt
    else Raise (HTTPFound_exc (route_url request "login_view"));
  IdentityProvider.is_user_logged_in_impl := fun _ s =>
    Ok (is_user_logged_in s);
  IdentityProvider.logout_impl := fun _ s =>
    match s !! "user" with
    | Some _ => Ok (delete "user" s)
    | None => Raise (KeyError "'user'")
    end;
  IdentityProvider.get_current_user_impl := fun _ s =>
    match s !! "user" with
    | Some (VStr name) =>
        match users !! name with
        | Some u => Ok u
        | None => Raise (KeyError ("'" +:+ name +:+ "'"))
        end
    | _ => Raise (KeyError "'user'")
    end;
  IdentityProvider.idp_digester_class := "Sha1Digester";
  IdentityProvider.idp_signer_class := "RsaSha1Signer"
|}.

(** A handler that answers the requests of one issuer, named by the
    ['entity_id'] option, and sends responses to its ['acs_url']. *)
Definition accepting_handler (entity_id acs : string) : SPHandler.t := {|
  SPHandler.parse_authn_request := fun raw =>
    match raw with
    | VStr r =>
        if String.eqb r entity_id
        then Ok {| issuer := r; acs_url := acs;
                   nameid_format := IdentityProvider.emailAddress_urn;
                   request_id := "id-1" |}
        else Raise (CannotHandleAssertion "issuer mismatch")
    | _ => Raise (ValueError "not a string")
    end;
  SPHandler.make_response := fun req =>
    Ok {| response_xml := "<Response/>"; response_signed := false |};
  SPHandler.get_response_context := fun req resp relay =>
    Ok (<["acs_url" := VStr (acs_url req)]>
          (<["saml_response" := VStr (response_xml resp)]>
             (<["relay_state" := relay]> ∅)));
  SPHandler.is_valid_redirect := fun url => Ok (String.eqb url acs)
|}.

(** A handler whose parser fails with the exception [e]. *)
Definition failing_handler (e : exn) : SPHandler.t := {|
  SPHandler.parse_authn_request := fun _ => Raise e;
  SPHandler.make_response := fun _ =>
    Ok {| response_xml := ""; response_signed := false |};
  SPHandler.get_response_context := fun _ _ _ => Ok ∅;
  SPHandler.is_valid_redirect := fun _ => Ok false
|}.

Definition str_option (options : gmap string pyval) (k : string) : string :=
  match options !! k with Some (VStr s) => s | _ => "" end.

Definition import_string (path : string)
    : result IdentityProvider.handler_class :=
  if String.eqb path "examples.idp.AttributeSPHandler" then
    Ok (fun _ _ options =>
          Ok (accepting_handler (str_option options "entity_id")
                                (str_option options "acs_url")))
  else if String.eqb path "examples.idp.RejectingSPHandler" then
    Ok (fun _ _ _ => Ok (failing_handler (CannotHandleAssertion "not mine")))
  else if String.eqb path "examples.idp.BrokenSPHandler" then
    Ok (fun _ _ _ => Ok (failing_handler (KeyError "'Issuer'")))
  else Raise (ImportError path).

Definition sp (path entity_id acs : string) : ServiceProviderConfig := {|
  CLASS := Some path;
  OPTIONS := Some (<["entity_id" := VStr entity_id]>
                     (<["acs_url" := VStr acs]> ∅))
|}.

Definition sp_example : ServiceProviderConfig :=
  sp "examples.idp.AttributeSPHandler"
     "http://localhost:9000/saml/metadata.xml"
     "http://localhost:9000/saml/acs/".

Definition idp_config (certificate private_key : option string)
    : gmap string pyval :=
  let d := <["autosubmit" := VBool true]> ∅ in
  let d := match certificate with
           | Some c => <["certificate" := VCert c]> d
           | None => d
           end in
  match private_key with
  | Some k => <["private_key" := VKey k]> d
  | None => d
  end.

Definition registry_with (config : gmap string pyval)
    (sps : list ServiceProviderConfig) : Registry := {|
  saml2_idp_cls := ExampleIdentityProvider;
  registry_settings := {| SAML2_IDP := config; SAML2_SERVICE_PROVIDERS := sps |}
|}.

(** The settings of [examples/idp.py]. *)
Definition registry : Registry :=
  registry_with (idp_config (Some "idp-certificate.pem")
                            (Some "idp-private-key.pem"))
                [sp_example].

Definition request_with (ps : gmap string string) : Request := {|
  params := ps;
  route_url := fun name => "http://localhost:8000/" +:+ name
|}.

Definition logged_in : Session := <["user" := VStr "alex"]> ∅.

Definition captured (saml relay : string) : Session :=
  <["RelayState" := VStr relay]> (<["SAMLRequest" := VStr saml]> logged_in).

Definition sp_issuer : string := "http://localhost:9000/saml/metadata.xml".
Definition sp_acs : string := "http://localhost:9000/saml/acs/".

(** Three registrations: one that rejects every request, the example's
    own, and one whose parser breaks with a [KeyError]. *)
Definition registry3 : Registry :=
  registry_with (idp_config None None)
    [sp "examples.idp.RejectingSPHandler" "" "";
     sp_example;
     sp "examples.idp.BrokenSPHandler" "" ""].

(** The broken handler first, then the example's. *)
Definition registry_broken_first : Registry :=
  registry_with (idp_config None None)
    [sp "examples.idp.BrokenSPHandler" "" ""; sp_example].

(** A private key and no certificate. *)
Definition registry_key_only : Registry :=
  registry_with (idp_config None (Some "idp-private-key.pem")) [sp_example].

Definition persistent_urn : string :=
  "urn:oasis:names:tc:SAML:2.0:nameid-format:persistent".
End Example.

(** ** The metadata view and the rest of the example application *)

(** [handler.is_valid_redirect(url)] returns [False] for the handler the
    generator yields. *)
Definition rejects_redirect (url : string) (r : result SPHandler.t) : Prop :=
  exists handler,
    r = Ok handler /\ SPHandler.is_valid_redirect handler url = Ok false.

(** What position [r] of the generator contributes to
    [any(handler.is_valid_redirect(url) ...)]: the handler's answer, or the
    exception of its construction or of its method. *)
Definition redirect_answer (url : string) (r : result SPHandler.t)
    : result bool :=
  result_bind r (fun handler => SPHandler.is_valid_redirect handler url).

Module Metadata.

(** The values of the metadata context: the Python values above, and the
    list under ['contacts']. *)
Inductive ctxval : Type :=
  | CVal (v : pyval)
  | CList (items : list pyval).

(** What the view leaves behind: the content type it set on
    [request.response], and what it returned or raised. *)
Record run : Type := {
  content_type : string;
  returned : result (gmap string ctxval)
}.

Section WithUtils.
(** [pyramid_saml2.utils.certificate_to_string], applied to whatever
    [get_idp_certificate] returns. *)
Variable certificate_to_string : pyval -> result string.

(** [IdentityProvider.get_metadata_context] *)
Definition get_metadata_context (self : IdentityProvider.t)
    : result (gmap string ctxval) :=
  let entity_id := IdentityProvider.get_idp_entity_id self in
  result_bind
    (certificate_to_string (IdentityProvider.get_idp_certificate self))
    (fun certificate =>
       let slo_url := IdentityProvider.get_slo_url self in
       let sso_url := IdentityProvider.get_sso_url self in
       Ok (<["entity_id" := CVal (VStr entity_id)]>
             (<["certificate" := CVal (VStr certificate)]>
                (<["slo_url" := CVal (VStr slo_url)]>
                   (<["sso_url" := CVal (VStr sso_url)]>
                      (<["org" := CVal VNone]>
                         (<["contacts" := CList []]> ∅))))))).

(** [views.metadata]: [{"idp": idp, **idp.get_metadata_context()}], after
    the content type is set. *)
Definition metadata (registry : views.Registry) (request : Request) : run :=
  let idp := views.new_idp registry request in
  {| content_type := "application/xml";
     returned :=
       result_bind (get_metadata_context idp)
         (fun context => Ok (context ∪ {[ "idp" := CVal VIdp ]})) |}.
End WithUtils.

End Metadata.

(** [examples/idp.py], with the redirect of [login_required] as the source
    computes it and the [post] method of [LoginView]. *)
Module ExampleApp.

(** The text of a key in the message of a [KeyError]. *)
Definition key_repr (v : pyval) : string :=
  match v with
  | VNone => "None"
  | VBool true => "True"
  | VBool false => "False"
  | VStr name => "'" +:+ name +:+ "'"
  | VCert _ => "<X509>"
  | VKey _ => "<PKey>"
  | VIdp => "<IdentityProvider>"
  end.

Section WithLoginUrl.
(** [request.route_url('login_view', _query={"next": request.url})] *)
Variable login_url : Request -> string.

Definition ExampleIdentityProvider : IdentityProvider.cls := {|
  IdentityProvider.login_required_impl := fun request s =>
    if Example.is_user_logged_in s then Ok tt
    else Raise (HTTPFound_exc (login_url request));
  IdentityProvider.is_user_logged_in_impl := fun _ s =>
    Ok (Example.is_user_logged_in s);
  IdentityProvider.logout_impl := fun _ s =>
    match s !! "user" with
    | Some _ => Ok (delete "user" s)
    | None => Raise (KeyError "'user'")
    end;
  IdentityProvider.get_current_user_impl := fun _ s =>
    match s !! "user" with
    | Some (VStr name) =>
        match Example.users !! name with
        | Some u => Ok u
        | None => Raise (KeyError ("'" +:+ name +:+ "'"))
        end
    | Some v => Raise (KeyError (key_repr v))
    | None => Raise (KeyError "'user'")
    end;
  IdentityProvider.idp_digester_class := "Sha1Digester";
  IdentityProvider.idp_signer_class := "RsaSha1Signer"
|}.
End WithLoginUrl.

(** [LoginView.post]: both parameters are read before the session is
    written. *)
Definition LoginView_post (request : Request) : M views.view_result :=
  match params request !! "user" with
  | None => raise (KeyError "'user'")
  | Some user =>
      match params request !! "next" with
      | None => raise (KeyError "'next'")
      | Some next =>
          exec session_set "user" (VStr user) ;;
          ret (views.RFound next)
      end
  end.

End ExampleApp.

(** * Properties *)

(** ** Signing policy and name-id mapping *)

Lemma is_not_None_true (v : pyval) : is_not_None v = true <-> v <> VNone.
Proof. destruct v; simpl; split; intros H; congruence. Qed.

Lemma is_not_None_false (v : pyval) : is_not_None v = false <-> v = VNone.
Proof. destruct v; simpl; split; intros H; congruence. Qed.

(** [d.get(k)] is not [None] exactly when [k] is bound to a value other
    than [None]. *)
Lemma dict_get_not_None (d : gmap string pyval) (k : string) :
  dict_get d k <> VNone <-> exists v, d !! k = Some v /\ v <> VNone.
Proof.
  unfold dict_get. destruct (d !! k) as [v|]; simpl; split.
  - intros H. exists v. split; [reflexivity | exact H].
  - intros (w & Hw & Hne). congruence.
  - intros H. congruence.
  - intros (w & Hw & _). discriminate.
Qed.

(** C4: [should_sign_responses()] is true if and only if both the
    certificate and the private key of the configuration are present (not
    [None]); of the four presence/absence combinations, only the one with
    both present gives true. *)
Theorem should_sign_responses_iff_both_present (self : IdentityProvider.t) :
  let certificate := IdentityProvider.get_idp_certificate self in
  let private_key := IdentityProvider.get_idp_private_key self in
  (IdentityProvider.should_sign_responses self = true
     <-> certificate <> VNone /\ private_key <> VNone)
  /\ (certificate <> VNone -> private_key <> VNone ->
        IdentityProvider.should_sign_responses self = true)
  /\ (certificate <> VNone -> private_key = VNone ->
        IdentityProvider.should_sign_responses self = false)
  /\ (certificate = VNone -> private_key <> VNone ->
        IdentityProvider.should_sign_responses self = false)
  /\ (certificate = VNone -> private_key = VNone ->
        IdentityProvider.should_sign_responses self = false).
Proof.
  unfold IdentityProvider.should_sign_responses.
  destruct (IdentityProvider.get_idp_certificate self) eqn:Hc;
    destruct (IdentityProvider.get_idp_private_key self) eqn:Hk;
    cbn -[IdentityProvider.get_idp_certificate
          IdentityProvider.get_idp_private_key];
    rewrite ?Hc, ?Hk; simpl;
    repeat split; intros; try congruence; intuition congruence.
Qed.

(** The signer is decided by the private key alone. *)
Lemma get_idp_signer_eq (self : IdentityProvider.t) :
  IdentityProvider.get_idp_signer self =
    if is_not_None (IdentityProvider.get_idp_private_key self)
    then Some {| signer_class :=
                   IdentityProvider.idp_signer_class
                     (IdentityProvider.class_of self);
                 signer_key := IdentityProvider.get_idp_private_key self |}
    else None.
Proof. reflexivity. Qed.

(** C5, as amended: [get_idp_signer()] returns a signer built from the
    configured private key whenever a private key is configured, with or
    without a certificate, and [None] exactly when no private key is
    configured; so it returns a signer whenever [should_sign_responses()]
    is true, and where it returns [None] signing is disabled. *)
Theorem get_idp_signer_by_private_key (self : IdentityProvider.t) :
  (IdentityProvider.get_idp_private_key self <> VNone ->
     IdentityProvider.get_idp_signer self =
       Some {| signer_class :=
                 IdentityProvider.idp_signer_class
                   (IdentityProvider.class_of self);
               signer_key := IdentityProvider.get_idp_private_key self |})
  /\ (IdentityProvider.get_idp_signer self = None
        <-> IdentityProvider.get_idp_private_key self = VNone)
  /\ (IdentityProvider.should_sign_responses self = true ->
        is_Some (IdentityProvider.get_idp_signer self))
  /\ (IdentityProvider.get_idp_signer self = None ->
        IdentityProvider.should_sign_responses self = false).
Proof.
  rewrite get_idp_signer_eq.
  unfold IdentityProvider.should_sign_responses.
  destruct (is_not_None (IdentityProvider.get_idp_private_key self)) eqn:Hk.
  - apply is_not_None_true in Hk. repeat split.
    + intros H. discriminate.
    + intros H. contradiction.
    + intros _. eexists. reflexivity.
    + intros H. discriminate.
  - apply is_not_None_false in Hk. repeat split.
    + intros H. contradiction.
    + intros _. exact Hk.
    + intros H. apply andb_true_iff in H as [_ H]. discriminate.
    + intros _. apply andb_false_r.
Qed.

(** C6, as amended: the default [get_user_nameid] returns the user's email
    address for the email-address URN and raises [NotImplementedError],
    with the attribute in its message, for every other attribute. *)
Theorem get_user_nameid_email_only
    (self : IdentityProvider.t) (user : User) (attribute : string) :
  (attribute = IdentityProvider.emailAddress_urn ->
     IdentityProvider.get_user_nameid self user attribute = Ok (email user))
  /\ (attribute <> IdentityProvider.emailAddress_urn ->
        IdentityProvider.get_user_nameid self user attribute =
          Raise (NotImplementedError
                   ("Can't fetch attribute " +:+ attribute +:+ " from user"))).
Proof.
  unfold IdentityProvider.get_user_nameid, IdentityProvider.get_user_email.
  destruct (String.eqb_spec attribute IdentityProvider.emailAddress_urn)
    as [Heq | Hne]; split; intros H; try reflexivity; contradiction.
Qed.

(** ** The handler-resolution loop of [login_process] *)
Section Resolution.
Import views.

Variables saml_request relay_state : pyval.

Lemma trial_run (i : nat) (handler : SPHandler.t) (s : Session) :
  trial i handler saml_request relay_state s =
    (trial_result handler saml_request relay_state, s,
     trial_log i handler saml_request relay_state).
Proof.
  unfold trial, trial_result, trial_log, bind, call, result_bind.
  destruct (SPHandler.parse_authn_request handler saml_request)
    as [request | e]; [| reflexivity].
  destruct (SPHandler.make_response handler request)
    as [response | e]; [| reflexivity].
  destruct (SPHandler.get_response_context handler request response
              relay_state); reflexivity.
Qed.

(** Every call of a trial is a call of its own handler. *)
Lemma trial_log_handler (i : nat) (handler : SPHandler.t) (ev : event) :
  ev ∈ trial_log i handler saml_request relay_state ->
  event_handler ev = Some i.
Proof.
  unfold trial_log. intros H.
  repeat match goal with
         | H : _ ∈ match ?x with _ => _ end |- _ => destruct x
         | H : _ ∈ _ :: _ |- _ => apply elem_of_cons in H as [-> | H]
         | H : _ ∈ [] |- _ => apply elem_of_nil in H; contradiction
         end; reflexivity.
Qed.

(** The last call of a trial returns exactly when the trial succeeds. *)
Lemma trial_log_completed (i k : nat) (handler : SPHandler.t) :
  EvCall k MGetResponseContext true
    ∈ trial_log i handler saml_request relay_state
  <-> k = i /\ exists context,
        trial_result handler saml_request relay_state = Ok context.
Proof.
  unfold trial_log, trial_result, result_bind.
  destruct (SPHandler.parse_authn_request handler saml_request)
    as [request | e].
  2: { split; [intros H | intros (_ & c & H); discriminate].
       apply list_elem_of_singleton in H. discriminate. }
  destruct (SPHandler.make_response handler request) as [response | e].
  2: { split; [intros H | intros (_ & c & H); discriminate].
       apply elem_of_cons in H as [H | H]; [discriminate |].
       apply list_elem_of_singleton in H. discriminate. }
  destruct (SPHandler.get_response_context handler request response
              relay_state) as [context | e]; simpl.
  - split.
    + intros H. apply elem_of_cons in H as [H | H]; [discriminate |].
      apply elem_of_cons in H as [H | H]; [discriminate |].
      apply list_elem_of_singleton in H. injection H as ->. eauto.
    + intros (-> & _). do 2 apply list_elem_of_further.
      apply list_elem_of_here.
  - split; [intros H | intros (_ & c & H); discriminate].
    apply elem_of_cons in H as [H | H]; [discriminate |].
    apply elem_of_cons in H as [H | H]; [discriminate |].
    apply list_elem_of_singleton in H. discriminate.
Qed.

(** A call of a trial raises exactly when the trial fails. *)
Lemma trial_log_raised (i k : nat) (m : method) (handler : SPHandler.t) :
  EvCall k m false ∈ trial_log i handler saml_request relay_state ->
  k = i /\ exists e, trial_result handler saml_request relay_state = Raise e.
Proof.
  unfold trial_log, trial_result, result_bind.
  destruct (SPHandler.parse_authn_request handler saml_request)
    as [request | e].
  2: { intros H. apply list_elem_of_singleton in H.
       injection H as -> _. eauto. }
  destruct (SPHandler.make_response handler request) as [response | e].
  2: { intros H. apply elem_of_cons in H as [H | H]; [discriminate |].
       apply list_elem_of_singleton in H. injection H as -> _. eauto. }
  destruct (SPHandler.get_response_context handler request response
              relay_state) as [context | e]; simpl; intros H;
    apply elem_of_cons in H as [H | H]; try discriminate;
    apply elem_of_cons in H as [H | H]; try discriminate;
    apply list_elem_of_singleton in H; try discriminate.
  injection H as -> _. eauto.
Qed.

(** The loop at a handler the generator yields. *)
Lemma login_process_loop_yield (i : nat) (handler : SPHandler.t)
    (rest : list (result SPHandler.t)) (s : Session) :
  login_process_loop i (Ok handler :: rest) saml_request relay_state s =
    let log := EvConstruct i true
               :: trial_log i handler saml_request relay_state in
    match trial_result handler saml_request relay_state with
    | Ok context => (Ok (RContext (with_idp context)), s, log)
    | Raise e =>
        if caught e then
          let x := login_process_loop (S i) rest saml_request relay_state s in
          (outcome x, session_after x, log ++ EvLogException i :: events x)
        else (Raise e, s, log)
    end.
Proof.
  simpl. unfold bind at 1. unfold tell at 1. unfold try_except_else.
  rewrite trial_run.
  destruct (trial_result handler saml_request relay_state) as [context | e].
  - unfold ret. simpl. rewrite app_nil_r. reflexivity.
  - destruct (caught e); [| reflexivity].
    unfold bind, tell.
    destruct (login_process_loop (S i) rest saml_request relay_state s)
      as [[r s'] t].
    reflexivity.
Qed.

(** The loop at a handler whose construction raises. *)
Lemma login_process_loop_broken (i : nat) (e : exn)
    (rest : list (result SPHandler.t)) (s : Session) :
  login_process_loop i (Raise e :: rest) saml_request relay_state s =
    (Raise e, s, [EvConstruct i false]).
Proof. reflexivity. Qed.

Local Abbreviation loop i gen s :=
  (login_process_loop i gen saml_request relay_state s) (only parsing).

Lemma outcome_mk {A} (r : result A) (s : Session) (t : list event) :
  outcome (r, s, t) = r.
Proof. reflexivity. Qed.

Lemma session_after_mk {A} (r : result A) (s : Session) (t : list event) :
  session_after (r, s, t) = s.
Proof. reflexivity. Qed.

Lemma events_mk {A} (r : result A) (s : Session) (t : list event) :
  events (r, s, t) = t.
Proof. reflexivity. Qed.

Lemma run_eta {A} (x : result A * Session * list event) :
  (outcome x, session_after x, events x) = x.
Proof. destruct x as [[r s] t]. reflexivity. Qed.

(** The loop never touches the session. *)
Lemma login_process_loop_session (gen : list (result SPHandler.t)) :
  forall i s, session_after (loop i gen s) = s.
Proof.
  induction gen as [| [handler | e] rest IH]; intros i s.
  - reflexivity.
  - rewrite login_process_loop_yield. cbv zeta.
    destruct (trial_result handler saml_request relay_state) as [c | e];
      [reflexivity |].
    destruct (caught e); [apply IH | reflexivity].
  - reflexivity.
Qed.

(** From handler [i] on, the loop only deals with handlers [i], [i+1], ... *)
Lemma login_process_loop_events_ge (gen : list (result SPHandler.t)) :
  forall i s ev, ev ∈ events (loop i gen s) ->
    exists j, event_handler ev = Some j /\ i <= j.
Proof.
  induction gen as [| [handler | e] rest IH]; intros i s ev Hev.
  - apply elem_of_nil in Hev. contradiction.
  - rewrite login_process_loop_yield in Hev. cbv zeta in Hev.
    assert (Hlog : ev ∈ EvConstruct i true
                        :: trial_log i handler saml_request relay_state ->
                   exists j, event_handler ev = Some j /\ i <= j).
    { intros H. apply elem_of_cons in H as [-> | H].
      - exists i. split; [reflexivity | lia].
      - exists i. split; [eapply trial_log_handler; eassumption | lia]. }
    destruct (trial_result handler saml_request relay_state) as [c | e];
      [exact (Hlog Hev) |].
    destruct (caught e); [| exact (Hlog Hev)].
    unfold events in Hev. simpl in Hev.
    change (ev ∈ (EvConstruct i true
                   :: trial_log i handler saml_request relay_state)
                 ++ EvLogException i :: events (loop (S i) rest s)) in Hev.
    apply elem_of_app in Hev as [H | H]; [exact (Hlog H) |].
    apply elem_of_cons in H as [-> | H].
    + exists i. split; [reflexivity | lia].
    + destruct (IH _ _ _ H) as (j & Hj & Hle). exists j. split; [exact Hj | lia].
  - apply list_elem_of_singleton in Hev as ->.
    exists i. split; [reflexivity | lia].
Qed.

(** Past a prefix of handlers that fall through, the loop goes on from the
    next position; what it logged so far concerns the prefix only. *)
Lemma login_process_loop_skip (n : nat) :
  forall gen i, prefix_falls_through gen saml_request relay_state n ->
    exists pre,
      (forall ev, ev ∈ pre -> exists j, event_handler ev = Some j /\ j < i + n)
      /\ (forall m, m < n -> EvLogException (i + m) ∈ pre)
      /\ forall s,
           loop i gen s =
             let x := loop (i + n) (drop n gen) s in
             (outcome x, session_after x, pre ++ events x).
Proof.
  induction n as [| n IH]; intros gen i Hpre.
  - exists []. split; [| split].
    + intros ev H. apply elem_of_nil in H. contradiction.
    + intros m Hm. lia.
    + intros s. rewrite Nat.add_0_r, drop_0. cbv zeta. simpl.
      symmetry. apply run_eta.
  - destruct (Hpre 0 ltac:(lia)) as (r & Hr & handler & e & -> & Ht & Hc).
    destruct gen as [| r0 rest]; [discriminate |].
    simpl in Hr. injection Hr as ->.
    destruct (IH rest (S i)) as (pre & Hbound & Hlogged & Heq).
    { intros m Hm. apply (Hpre (S m)). lia. }
    exists ((EvConstruct i true
              :: trial_log i handler saml_request relay_state)
            ++ EvLogException i :: pre).
    split; [| split].
    + intros ev H. apply elem_of_app in H as [H | H].
      * apply elem_of_cons in H as [-> | H].
        -- exists i. split; [reflexivity | lia].
        -- exists i. split; [eapply trial_log_handler; eassumption | lia].
      * apply elem_of_cons in H as [-> | H].
        -- exists i. split; [reflexivity | lia].
        -- destruct (Hbound _ H) as (j & Hj & Hlt).
           exists j. split; [exact Hj | lia].
    + intros m Hm. apply elem_of_app. right.
      destruct m as [| m].
      * rewrite Nat.add_0_r. apply list_elem_of_here.
      * apply list_elem_of_further.
        replace (i + S m) with (S i + m) by lia. apply Hlogged. lia.
    + intros s. rewrite login_process_loop_yield. cbv zeta.
      rewrite Ht, Hc, Heq. cbv zeta.
      replace (i + S n) with (S i + n) by lia. simpl drop.
      unfold outcome, session_after, events. simpl.
      rewrite <- app_assoc. reflexivity.
Qed.

(** An event of handler [k] in the log means the loop reached position
    [k]: the generator had a [k]-th element and every handler before it
    fell through. *)
Lemma login_process_loop_reached (gen : list (result SPHandler.t)) :
  forall i s ev k,
    ev ∈ events (loop i gen s) -> event_handler ev = Some k ->
    exists n r,
      k = i + n /\ gen !! n = Some r
      /\ prefix_falls_through gen saml_request relay_state n.
Proof.
  induction gen as [| [handler | e] rest IH]; intros i s ev k Hev Hk.
  - apply elem_of_nil in Hev. contradiction.
  - assert (Hhere : k = i ->
              exists n r, k = i + n /\ (Ok handler :: rest) !! n = Some r
                          /\ prefix_falls_through (Ok handler :: rest)
                               saml_request relay_state n).
    { intros ->. exists 0, (Ok handler). split; [lia |].
      split; [reflexivity |]. intros m Hm. lia. }
    assert (Hlog : ev ∈ EvConstruct i true
                        :: trial_log i handler saml_request relay_state ->
                   k = i).
    { intros H. apply elem_of_cons in H as [-> | H].
      - simpl in Hk. congruence.
      - apply trial_log_handler in H. congruence. }
    rewrite login_process_loop_yield in Hev. cbv zeta in Hev.
    destruct (trial_result handler saml_request relay_state)
      as [c | e] eqn:Ht; [exact (Hhere (Hlog Hev)) |].
    destruct (caught e) eqn:Hc; [| exact (Hhere (Hlog Hev))].
    change (ev ∈ (EvConstruct i true
                   :: trial_log i handler saml_request relay_state)
                 ++ EvLogException i :: events (loop (S i) rest s)) in Hev.
    apply elem_of_app in Hev as [H | H]; [exact (Hhere (Hlog H)) |].
    apply elem_of_cons in H as [-> | H].
    + simpl in Hk. apply Hhere. congruence.
    + destruct (IH _ _ _ _ H Hk) as (n & r & -> & Hr & Hpre).
      exists (S n), r. split; [lia |]. split; [exact Hr |].
      intros [| m] Hm.
      * exists (Ok handler). split; [reflexivity |].
        exists handler, e. auto.
      * apply (Hpre m). lia.
  - apply list_elem_of_singleton in Hev as ->. simpl in Hk.
    exists 0, (Raise e). split; [injection Hk as <-; lia |].
    split; [reflexivity |]. intros m Hm. lia.
Qed.

(** The step of the loop at position [i], when the last call of the trial
    of handler [i] returned. *)
Lemma login_process_loop_head_completed (i : nat) (r : result SPHandler.t)
    (rest : list (result SPHandler.t)) (s : Session) :
  EvCall i MGetResponseContext true ∈ events (loop i (r :: rest) s) ->
  exists handler context,
    r = Ok handler
    /\ trial_result handler saml_request relay_state = Ok context
    /\ loop i (r :: rest) s =
         (Ok (RContext (with_idp context)), s,
          EvConstruct i true
          :: trial_log i handler saml_request relay_state).
Proof.
  destruct r as [handler | e].
  2: { intros H. apply list_elem_of_singleton in H. discriminate. }
  rewrite login_process_loop_yield. cbv zeta.
  assert (Hlog : EvCall i MGetResponseContext true
                   ∈ EvConstruct i true
                     :: trial_log i handler saml_request relay_state ->
                 exists context,
                   trial_result handler saml_request relay_state
                   = Ok context).
  { intros H. apply elem_of_cons in H as [H | H]; [discriminate |].
    apply trial_log_completed in H as (_ & c & Hc). eauto. }
  destruct (trial_result handler saml_request relay_state)
    as [c | e] eqn:Ht.
  - intros _. exists handler, c. auto.
  - assert (Hno : EvCall i MGetResponseContext true
                    ∈ EvConstruct i true
                      :: trial_log i handler saml_request relay_state ->
                  False).
    { intros H. destruct (Hlog H) as (c & Hc). discriminate. }
    destruct (caught e); [| intros H; destruct (Hno H)].
    intros H.
    change (EvCall i MGetResponseContext true
              ∈ (EvConstruct i true
                  :: trial_log i handler saml_request relay_state)
                ++ EvLogException i :: events (loop (S i) rest s)) in H.
    apply elem_of_app in H as [H | H]; [destruct (Hno H) |].
    apply elem_of_cons in H as [H | H]; [discriminate |].
    apply login_process_loop_events_ge in H as (j & Hj & Hle).
    simpl in Hj. injection Hj as <-. lia.
Qed.

(** The step of the loop at position [i], when a call of the trial of
    handler [i] raised. *)
Lemma login_process_loop_head_raised (i : nat) (m : method)
    (r : result SPHandler.t) (rest : list (result SPHandler.t))
    (s : Session) :
  EvCall i m false ∈ events (loop i (r :: rest) s) ->
  exists handler e,
    r = Ok handler
    /\ trial_result handler saml_request relay_state = Raise e
    /\ loop i (r :: rest) s =
         let log := EvConstruct i true
                    :: trial_log i handler saml_request relay_state in
         if caught e then
           let x := loop (S i) rest s in
           (outcome x, session_after x, log ++ EvLogException i :: events x)
         else (Raise e, s, log).
Proof.
  destruct r as [handler | e].
  2: { intros H. apply list_elem_of_singleton in H. discriminate. }
  rewrite login_process_loop_yield. cbv zeta.
  destruct (trial_result handler saml_request relay_state)
    as [c | e] eqn:Ht.
  - intros H. apply elem_of_cons in H as [H | H]; [discriminate |].
    apply trial_log_raised in H as (_ & e & He).
    rewrite Ht in He. discriminate.
  - intros _. exists handler, e. auto.
Qed.

(** First match wins, at the level of the loop. *)
Lemma login_process_loop_completed (gen : list (result SPHandler.t))
    (s : Session) (i : nat) :
  EvCall i MGetResponseContext true ∈ events (loop 0 gen s) ->
  exists handler context,
    gen !! i = Some (Ok handler)
    /\ trial_result handler saml_request relay_state = Ok context
    /\ outcome (loop 0 gen s) = Ok (RContext (with_idp context))
    /\ (forall ev j, ev ∈ events (loop 0 gen s) ->
                     event_handler ev = Some j -> j <= i)
    /\ prefix_falls_through gen saml_request relay_state i
    /\ (forall j, j < i -> EvLogException j ∈ events (loop 0 gen s)).
Proof.
  intros Hev.
  destruct (login_process_loop_reached gen 0 s _ i Hev eq_refl)
    as (n & r & Hn & Hr & Hpre).
  simpl in Hn. subst n.
  destruct (login_process_loop_skip i gen 0 Hpre)
    as (pre & Hbound & Hlogged & Heq).
  simpl in Hbound, Hlogged, Heq.
  rewrite (drop_S _ _ _ Hr) in Heq.
  specialize (Heq s). cbv zeta in Heq.
  assert (Hx : EvCall i MGetResponseContext true
                 ∈ events (loop i (r :: drop (S i) gen) s)).
  { rewrite Heq in Hev. unfold events at 1 in Hev. simpl in Hev.
    apply elem_of_app in Hev as [H | H]; [| exact H].
    destruct (Hbound _ H) as (j & Hj & Hlt).
    simpl in Hj. injection Hj as <-. lia. }
  destruct (login_process_loop_head_completed _ _ _ _ Hx)
    as (handler & context & -> & Ht & Hhead).
  rewrite Hhead in Heq. rewrite Heq.
  unfold outcome, events. simpl.
  exists handler, context.
  split; [exact Hr |]. split; [exact Ht |]. split; [reflexivity |].
  split; [| split; [exact Hpre |]].
  - intros ev j H Hj. apply elem_of_app in H as [H | H].
    + destruct (Hbound _ H) as (j' & Hj' & Hlt).
      rewrite Hj in Hj'. injection Hj' as <-. lia.
    + apply elem_of_cons in H as [-> | H].
      * simpl in Hj. injection Hj as <-. lia.
      * apply trial_log_handler in H. rewrite Hj in H.
        injection H as <-. lia.
  - intros j Hj. apply elem_of_app. left. apply Hlogged. exact Hj.
Qed.

(** Fallback or propagation, at the level of the loop. *)
Lemma login_process_loop_raised (gen : list (result SPHandler.t))
    (s : Session) (i : nat) (m : method) :
  EvCall i m false ∈ events (loop 0 gen s) ->
  exists handler e,
    gen !! i = Some (Ok handler)
    /\ trial_result handler saml_request relay_state = Raise e
    /\ prefix_falls_through gen saml_request relay_state i
    /\ (caught e = true ->
          outcome (loop 0 gen s)
          = outcome (loop (S i) (drop (S i) gen) s)
          /\ EvLogException i ∈ events (loop 0 gen s)
          /\ forall ev, ev ∈ events (loop (S i) (drop (S i) gen) s) ->
                        ev ∈ events (loop 0 gen s))
    /\ (caught e = false ->
          outcome (loop 0 gen s) = Raise e
          /\ forall ev j, ev ∈ events (loop 0 gen s) ->
                          event_handler ev = Some j -> j <= i).
Proof.
  intros Hev.
  destruct (login_process_loop_reached gen 0 s _ i Hev eq_refl)
    as (n & r & Hn & Hr & Hpre).
  simpl in Hn. subst n.
  destruct (login_process_loop_skip i gen 0 Hpre)
    as (pre & Hbound & Hlogged & Heq).
  simpl in Hbound, Hlogged, Heq.
  rewrite (drop_S _ _ _ Hr) in Heq.
  specialize (Heq s). cbv zeta in Heq.
  assert (Hx : EvCall i m false
                 ∈ events (loop i (r :: drop (S i) gen) s)).
  { rewrite Heq in Hev. unfold events at 1 in Hev. simpl in Hev.
    apply elem_of_app in Hev as [H | H]; [| exact H].
    destruct (Hbound _ H) as (j & Hj & Hlt).
    simpl in Hj. injection Hj as <-. lia. }
  destruct (login_process_loop_head_raised _ _ _ _ _ Hx)
    as (handler & e & -> & Ht & Hhead).
  cbv zeta in Hhead. rewrite Hhead in Heq. rewrite Heq.
  exists handler, e.
  split; [exact Hr |]. split; [exact Ht |]. split; [exact Hpre |].
  split; intros Hc; rewrite Hc; unfold outcome, events; simpl.
  - split; [reflexivity |]. split.
    + apply elem_of_app. right. apply list_elem_of_further.
      apply elem_of_app. right. apply list_elem_of_here.
    + intros ev H. apply elem_of_app. right. apply list_elem_of_further.
      apply elem_of_app. right. apply list_elem_of_further. exact H.
  - split; [reflexivity |].
    intros ev j H Hj. apply elem_of_app in H as [H | H].
    + destruct (Hbound _ H) as (j' & Hj' & Hlt).
      rewrite Hj in Hj'. injection Hj' as <-. lia.
    + apply elem_of_cons in H as [-> | H].
      * simpl in Hj. injection Hj as <-. lia.
      * apply trial_log_handler in H. rewrite Hj in H.
        injection H as <-. lia.
Qed.

(** Every trial starts with the parser. *)
Lemma trial_log_parse (i : nat) (handler : SPHandler.t) :
  EvCall i MParse
    (is_ok (SPHandler.parse_authn_request handler saml_request))
    ∈ trial_log i handler saml_request relay_state.
Proof.
  unfold trial_log.
  destruct (SPHandler.parse_authn_request handler saml_request);
    apply list_elem_of_here.
Qed.

(** A step of the loop pulls the next handler and, when there is one,
    calls its parser. *)
Lemma login_process_loop_pull (i : nat) (r : result SPHandler.t)
    (rest : list (result SPHandler.t)) (s : Session) :
  EvConstruct i (is_ok r) ∈ events (loop i (r :: rest) s)
  /\ forall handler, r = Ok handler ->
       EvCall i MParse
         (is_ok (SPHandler.parse_authn_request handler saml_request))
         ∈ events (loop i (r :: rest) s).
Proof.
  destruct r as [handler | e].
  - rewrite login_process_loop_yield. cbv zeta.
    assert (H1 : forall l : list event,
               EvConstruct i true
                 ∈ (EvConstruct i true
                     :: trial_log i handler saml_request relay_state) ++ l).
    { intros l. apply list_elem_of_here. }
    assert (H2 : forall l : list event,
               EvCall i MParse
                 (is_ok (SPHandler.parse_authn_request handler saml_request))
                 ∈ (EvConstruct i true
                     :: trial_log i handler saml_request relay_state) ++ l).
    { intros l. apply list_elem_of_further. apply elem_of_app. left.
      apply trial_log_parse. }
    specialize (H1 []) as H1n. specialize (H2 []) as H2n.
    rewrite app_nil_r in H1n, H2n.
    destruct (trial_result handler saml_request relay_state) as [c | e].
    + split; [exact H1n |]. intros h [= <-]. exact H2n.
    + destruct (caught e).
      * split; [apply H1 |]. intros h [= <-]. apply H2.
      * split; [exact H1n |]. intros h [= <-]. exact H2n.
  - split; [apply list_elem_of_here |]. intros h Hh. discriminate.
Qed.

(** When every handler falls through, the loop ends in the final [raise]. *)
Lemma login_process_loop_exhausted (gen : list (result SPHandler.t))
    (s : Session) :
  prefix_falls_through gen saml_request relay_state (length gen) ->
  outcome (loop 0 gen s) = Raise (CannotHandleAssertion no_handler_msg)
  /\ (forall i, EvCall i MGetResponseContext true ∉ events (loop 0 gen s))
  /\ (forall j, j < length gen -> EvLogException j ∈ events (loop 0 gen s)).
Proof.
  intros Hpre.
  destruct (login_process_loop_skip (length gen) gen 0 Hpre)
    as (pre & Hbound & Hlogged & Heq).
  simpl in Hbound, Hlogged, Heq. rewrite drop_all in Heq.
  split; [rewrite Heq; reflexivity |]. split.
  - intros i Hev.
    destruct (login_process_loop_completed gen s i Hev)
      as (handler & context & Hr & Ht & _).
    destruct (Hpre i) as (r & Hr' & h & e & -> & Ht' & _).
    { apply lookup_lt_Some in Hr. exact Hr. }
    rewrite Hr in Hr'. injection Hr' as ->.
    rewrite Ht in Ht'. discriminate.
  - intros j Hj. rewrite Heq. unfold events. simpl.
    rewrite app_nil_r. apply Hlogged. exact Hj.
Qed.

End Resolution.

(** ** The views *)
Section Views.
Import views.

Variable import_string : string -> result IdentityProvider.handler_class.
Variable registry : Registry.

(** [login_process], one branch after the other. *)
Lemma login_process_run (request : Request) (s : Session) :
  login_process import_string registry request s =
    match IdentityProvider.login_required_impl
            (saml2_idp_cls registry) request s with
    | Raise e => (Raise e, s, [EvLoginRequired false])
    | Ok _ =>
        match s !! "SAMLRequest", s !! "RelayState" with
        | None, _ =>
            (Ok (RStr "SAMLRequest is misssing"), s, [EvLoginRequired true])
        | Some _, None =>
            (Ok (RStr "RelayState is missing"), s, [EvLoginRequired true])
        | Some saml_request, Some relay_state =>
            let x := login_process_loop 0
                       (IdentityProvider.get_sp_handlers import_string
                          (new_idp registry request) s)
                       saml_request relay_state s in
            (outcome x, session_after x, EvLoginRequired true :: events x)
        end
    end.
Proof.
  unfold login_process, bind, IdentityProvider.login_required, get_session.
  cbn [new_idp IdentityProvider.class_of IdentityProvider.request].
  destruct (IdentityProvider.login_required_impl
              (saml2_idp_cls registry) request s) as [u | e];
    [| reflexivity].
  cbn [is_ok app].
  destruct (s !! "SAMLRequest") as [saml_request |]; [| reflexivity].
  destruct (s !! "RelayState") as [relay_state |]; [| reflexivity].
  cbv zeta.
  destruct (login_process_loop 0 _ saml_request relay_state s)
    as [[r s'] t].
  reflexivity.
Qed.

(** The loop returns a rendering context or raises; it never returns one
    of the error strings. *)
Lemma login_process_loop_outcome (saml_request relay_state : pyval)
    (gen : list (result SPHandler.t)) :
  forall i s,
    (exists c, outcome (login_process_loop i gen saml_request relay_state s)
               = Ok (RContext c))
    \/ (exists e, outcome (login_process_loop i gen saml_request relay_state s)
                  = Raise e).
Proof.
  induction gen as [| [handler | e] rest IH]; intros i s.
  - right. eexists. reflexivity.
  - rewrite login_process_loop_yield. cbv zeta.
    destruct (trial_result handler saml_request relay_state) as [c | e].
    + left. eexists. reflexivity.
    + destruct (caught e); [apply IH |]. right. eexists. reflexivity.
  - right. eexists. reflexivity.
Qed.

(** What a completed trial tells about the run: if, in a run of
    [login_process] on a captured SAMLRequest/RelayState pair, the last
    call of the trial of handler [i] ([get_response_context]) returned,
    then that handler is the [i]-th one of the configured sequence,
    [login_process] returns its response context (under the added ["idp"]
    entry), no handler after position [i] is constructed or called, and
    each handler before position [i] failed its trial with an exception
    the [except] clause catches ([CannotHandleAssertion] or a
    [ValueError]). *)
Theorem login_process_first_match
    (request : Request) (s : Session) (saml_request relay_state : pyval)
    (i : nat) :
  let run := login_process import_string registry request s in
  let handlers :=
    IdentityProvider.get_sp_handlers import_string
      (new_idp registry request) s in
  s !! "SAMLRequest" = Some saml_request ->
  s !! "RelayState" = Some relay_state ->
  EvCall i MGetResponseContext true ∈ events run ->
  exists handler context,
    handlers !! i = Some (Ok handler)
    /\ trial_result handler saml_request relay_state = Ok context
    /\ outcome run = Ok (RContext (with_idp context))
    /\ (forall key v, context !! key = Some v ->
                      with_idp context !! key = Some v)
    /\ (forall ev j, ev ∈ events run -> event_handler ev = Some j -> j <= i)
    /\ (forall j, j < i ->
          EvLogException j ∈ events run
          /\ exists handler_j e,
               handlers !! j = Some (Ok handler_j)
               /\ trial_result handler_j saml_request relay_state = Raise e
               /\ (isinstance e "CannotHandleAssertion" = true
                   \/ isinstance e "ValueError" = true)).
Proof.
  intros run handlers Hsaml Hrelay Hev. subst run handlers.
  rewrite login_process_run in Hev |- *.
  destruct (IdentityProvider.login_required_impl
              (saml2_idp_cls registry) request s) as [u | e].
  2: { apply list_elem_of_singleton in Hev. discriminate. }
  rewrite Hsaml, Hrelay in Hev |- *. cbv zeta in Hev |- *.
  unfold events at 1 in Hev. simpl in Hev.
  apply elem_of_cons in Hev as [Hev | Hev]; [discriminate |].
  destruct (login_process_loop_completed _ _ _ _ _ Hev)
    as (handler & context & Hr & Ht & Hout & Hbound & Hpre & Hlogged).
  exists handler, context.
  split; [exact Hr |]. split; [exact Ht |]. split; [exact Hout |].
  split; [| split].
  - intros key v Hkey. unfold with_idp.
    apply lookup_union_Some_l. exact Hkey.
  - intros ev j H Hj. apply elem_of_cons in H as [-> | H];
      [discriminate |]. exact (Hbound _ _ H Hj).
  - intros j Hj. split.
    + apply list_elem_of_further. apply Hlogged. exact Hj.
    + destruct (Hpre j Hj) as (r & Hrj & hj & e & -> & Htj & Hc).
      exists hj, e. split; [exact Hrj |]. split; [exact Htj |].
      unfold caught in Hc. apply orb_true_iff in Hc. exact Hc.
Qed.

(** The static form of first-match-wins: when the generator yields a
    handler at position [i] whose trial succeeds and every handler before
    it falls through, the run completes that handler's trial. *)
Lemma login_process_first_accepting
    (request : Request) (s : Session) (saml_request relay_state : pyval)
    (i : nat) (handler : SPHandler.t) (context : gmap string pyval) :
  let run := login_process import_string registry request s in
  let handlers :=
    IdentityProvider.get_sp_handlers import_string
      (new_idp registry request) s in
  IdentityProvider.login_required_impl (saml2_idp_cls registry) request s
  = Ok tt ->
  s !! "SAMLRequest" = Some saml_request ->
  s !! "RelayState" = Some relay_state ->
  handlers !! i = Some (Ok handler) ->
  trial_result handler saml_request relay_state = Ok context ->
  prefix_falls_through handlers saml_request relay_state i ->
  outcome run = Ok (RContext (with_idp context))
  /\ EvCall i MGetResponseContext true ∈ events run.
Proof.
  intros run handlers Hlogin Hsaml Hrelay Hr Ht Hpre. subst run.
  rewrite login_process_run, Hlogin, Hsaml, Hrelay. cbv zeta.
  fold handlers.
  destruct (login_process_loop_skip saml_request relay_state i handlers 0
              Hpre) as (pre & _ & _ & Heq).
  simpl in Heq. rewrite (drop_S _ _ _ Hr) in Heq.
  rewrite Heq, login_process_loop_yield, Ht. cbv zeta.
  unfold outcome, events. simpl. split; [reflexivity |].
  apply list_elem_of_further. apply elem_of_app. right.
  apply list_elem_of_further.
  apply trial_log_completed. split; [reflexivity |]. eauto.
Qed.

(** C2: if every configured handler is yielded and its trial raises
    [CannotHandleAssertion] or a [ValueError] (in particular if there is
    no handler at all), [login_process] raises [CannotHandleAssertion];
    it returns no response context, no trial completes, and the session
    is left as it was. *)
Theorem login_process_no_handler
    (request : Request) (s : Session) (saml_request relay_state : pyval) :
  let run := login_process import_string registry request s in
  let handlers :=
    IdentityProvider.get_sp_handlers import_string
      (new_idp registry request) s in
  IdentityProvider.login_required_impl (saml2_idp_cls registry) request s
  = Ok tt ->
  s !! "SAMLRequest" = Some saml_request ->
  s !! "RelayState" = Some relay_state ->
  Forall (fun r =>
            exists handler e,
              r = Ok handler
              /\ trial_result handler saml_request relay_state = Raise e
              /\ (isinstance e "CannotHandleAssertion" = true
                  \/ isinstance e "ValueError" = true))
         handlers ->
  outcome run = Raise (CannotHandleAssertion no_handler_msg)
  /\ (forall context, outcome run <> Ok (RContext context))
  /\ (forall i, EvCall i MGetResponseContext true ∉ events run)
  /\ session_after run = s.
Proof.
  intros run handlers Hlogin Hsaml Hrelay Hall. subst run.
  rewrite login_process_run, Hlogin, Hsaml, Hrelay. cbv zeta.
  fold handlers.
  assert (Hpre : prefix_falls_through handlers saml_request relay_state
                   (length handlers)).
  { intros m Hm. destruct (lookup_lt_is_Some_2 _ _ Hm) as (r & Hr).
    exists r. split; [exact Hr |].
    rewrite Forall_lookup in Hall.
    destruct (Hall _ _ Hr) as (h & e & -> & Ht & Hc).
    exists h, e. split; [reflexivity |]. split; [exact Ht |].
    unfold caught. apply orb_true_iff. exact Hc. }
  destruct (login_process_loop_exhausted saml_request relay_state
              handlers s Hpre) as (Hout & Hnone & _).
  rewrite outcome_mk, events_mk, session_after_mk, Hout.
  split; [reflexivity |]. split; [intros c H; discriminate |].
  split.
  - intros i H. apply elem_of_cons in H as [H | H]; [discriminate |].
    exact (Hnone i H).
  - apply login_process_loop_session.
Qed.

(** C3: when a call of the trial of handler [i] raises, the trial ends
    with an exception [e]. The loop falls back to the next handler
    exactly when [e] is a [CannotHandleAssertion] or a [ValueError]:
    then the failure is logged, the next handler (if any) is pulled and
    its parser called, and [login_process] ends as the loop over the
    remaining handlers ends. For any other [e], [login_process] raises
    [e], and no handler after position [i] is constructed or called. *)
Theorem login_process_fallback_policy
    (request : Request) (s : Session) (saml_request relay_state : pyval)
    (i : nat) (m : method) :
  let run := login_process import_string registry request s in
  let handlers :=
    IdentityProvider.get_sp_handlers import_string
      (new_idp registry request) s in
  s !! "SAMLRequest" = Some saml_request ->
  s !! "RelayState" = Some relay_state ->
  EvCall i m false ∈ events run ->
  exists handler e,
    handlers !! i = Some (Ok handler)
    /\ trial_result handler saml_request relay_state = Raise e
    /\ (caught e = true <->
          isinstance e "CannotHandleAssertion" = true
          \/ isinstance e "ValueError" = true)
    /\ (caught e = true ->
          EvLogException i ∈ events run
          /\ outcome run
             = outcome (login_process_loop (S i) (drop (S i) handlers)
                          saml_request relay_state s)
          /\ (forall r, handlers !! S i = Some r ->
                EvConstruct (S i) (is_ok r) ∈ events run)
          /\ (forall next, handlers !! S i = Some (Ok next) ->
                EvCall (S i) MParse
                  (is_ok (SPHandler.parse_authn_request next saml_request))
                  ∈ events run)
          /\ (handlers !! S i = None ->
                outcome run = Raise (CannotHandleAssertion no_handler_msg)))
    /\ (caught e = false ->
          outcome run = Raise e
          /\ forall ev j, ev ∈ events run ->
                          event_handler ev = Some j -> j <= i).
Proof.
  intros run handlers Hsaml Hrelay Hev. subst run.
  rewrite login_process_run in Hev |- *.
  destruct (IdentityProvider.login_required_impl
              (saml2_idp_cls registry) request s) as [u | e].
  2: { apply list_elem_of_singleton in Hev. discriminate. }
  rewrite Hsaml, Hrelay in Hev |- *. cbv zeta in Hev |- *.
  fold handlers in Hev |- *.
  unfold events at 1 in Hev. simpl in Hev.
  apply elem_of_cons in Hev as [Hev | Hev]; [discriminate |].
  destruct (login_process_loop_raised _ _ _ _ _ _ Hev)
    as (handler & e & Hr & Ht & Hpre & Hcaught & Hfatal).
  exists handler, e.
  split; [exact Hr |]. split; [exact Ht |].
  split; [unfold caught; apply orb_true_iff |].
  rewrite outcome_mk, events_mk.
  split.
  - intros Hc. destruct (Hcaught Hc) as (Hout & Hlog & Hsub).
    split; [apply list_elem_of_further; exact Hlog |].
    split; [exact Hout |].
    split; [| split].
    + intros r Hnext. apply list_elem_of_further. apply Hsub.
      rewrite (drop_S _ _ _ Hnext).
      apply login_process_loop_pull.
    + intros next Hnext. apply list_elem_of_further. apply Hsub.
      rewrite (drop_S _ _ _ Hnext).
      apply login_process_loop_pull. reflexivity.
    + intros Hnone. rewrite Hout.
      rewrite drop_ge; [reflexivity |].
      apply lookup_ge_None. exact Hnone.
  - intros Hc. destruct (Hfatal Hc) as (Hout & Hbound).
    split; [exact Hout |].
    intros ev j H Hj. apply elem_of_cons in H as [-> | H];
      [discriminate |]. exact (Hbound _ _ H Hj).
Qed.

(** C8: when the session lacks the key [SAMLRequest] or the key
    [RelayState], [login_process], once [login_required] has returned,
    returns an error string; nothing but the authentication check was
    called: no handler was constructed and no trial was made. *)
Theorem login_process_missing_session_state
    (request : Request) (s : Session) :
  let run := login_process import_string registry request s in
  IdentityProvider.login_required_impl (saml2_idp_cls registry) request s
  = Ok tt ->
  s !! "SAMLRequest" = None \/ s !! "RelayState" = None ->
  (outcome run = Ok (RStr "SAMLRequest is misssing")
   \/ outcome run = Ok (RStr "RelayState is missing"))
  /\ events run = [EvLoginRequired true]
  /\ (forall ev, ev ∈ events run -> event_handler ev = None)
  /\ session_after run = s.
Proof.
  intros run Hlogin Hmissing. subst run.
  rewrite login_process_run, Hlogin.
  assert (Hev : forall ev, ev ∈ [EvLoginRequired true] ->
                           event_handler ev = None).
  { intros ev H. apply list_elem_of_singleton in H as ->. reflexivity. }
  destruct (s !! "SAMLRequest") as [saml_request |] eqn:Hsaml.
  - destruct Hmissing as [H | H]; [discriminate |]. rewrite H.
    rewrite outcome_mk, events_mk, session_after_mk. auto.
  - rewrite outcome_mk, events_mk, session_after_mk. auto.
Qed.

(** [login_begin] neither fails nor calls anything. *)
Lemma login_begin_events (request : Request) (s : Session) :
  events (login_begin request s) = [].
Proof.
  unfold login_begin.
  destruct (params request !! "SAMLRequest") as [saml_request |];
    [| reflexivity].
  destruct (str_bool saml_request); reflexivity.
Qed.

Lemma str_bool_true (x : string) : str_bool x = true <-> x <> "".
Proof. destruct x; simpl; split; intros H; congruence. Qed.

(** The successful branch of [login_begin]. *)
Lemma login_begin_stores (request : Request) (s : Session)
    (saml_request : string) :
  params request !! "SAMLRequest" = Some saml_request ->
  saml_request <> "" ->
  login_begin request s =
    (Ok (RFound (route_url request "pyramid_saml2_idp_login_process")),
     <["RelayState" :=
         VStr (dict_get_default (params request) "RelayState" "")]>
       (<["SAMLRequest" := VStr saml_request]> s),
     []).
Proof.
  unfold login_begin. intros -> Hne.
  apply str_bool_true in Hne. rewrite Hne. reflexivity.
Qed.

(** C7: with the [SAMLRequest] parameter missing or empty, [login_begin]
    returns an error string, leaves the session as it was and calls
    nothing; with a non-empty [SAMLRequest] parameter it stores
    [SAMLRequest] and [RelayState] in the session and returns a redirect
    to the route of the process step. *)
Theorem login_begin_captures_request (request : Request) (s : Session) :
  (params request !! "SAMLRequest" = None
   \/ params request !! "SAMLRequest" = Some "" ->
     login_begin request s = (Ok (RStr "SAMLRequest is missing"), s, []))
  /\ (forall saml_request,
        params request !! "SAMLRequest" = Some saml_request ->
        saml_request <> "" ->
        login_begin request s =
          (Ok (RFound (route_url request "pyramid_saml2_idp_login_process")),
           <["RelayState" :=
               VStr (dict_get_default (params request) "RelayState" "")]>
             (<["SAMLRequest" := VStr saml_request]> s),
           [])).
Proof.
  split.
  - unfold login_begin. intros [-> | ->]; reflexivity.
  - intros saml_request Hsaml Hne. apply login_begin_stores; assumption.
Qed.

(** C10: a successful [login_begin] stores, under [RelayState], the value
    of the [RelayState] parameter, or the empty string when the parameter
    is absent, next to [SAMLRequest]; so both keys are present afterwards,
    and on every session that still holds what the begin step stored,
    [login_process] does not take its "RelayState is missing" branch.
    That branch is taken only on a session without the key. *)
Theorem login_begin_establishes_relay_state
    (request : Request) (s : Session) (saml_request : string) :
  let s' := session_after (login_begin request s) in
  params request !! "SAMLRequest" = Some saml_request ->
  saml_request <> "" ->
  s' !! "RelayState"
  = Some (VStr match params request !! "RelayState" with
               | Some relay_state => relay_state
               | None => ""
               end)
  /\ s' !! "SAMLRequest" = Some (VStr saml_request)
  /\ (forall request' s'',
        s' ⊆ s'' ->
        outcome (login_process import_string registry request' s'')
        <> Ok (RStr "RelayState is missing"))
  /\ (forall request' s'',
        outcome (login_process import_string registry request' s'')
        = Ok (RStr "RelayState is missing") ->
        s'' !! "RelayState" = None /\ ¬ s' ⊆ s'').
Proof.
  intros s' Hsaml Hne. subst s'.
  rewrite (login_begin_stores _ _ _ Hsaml Hne), session_after_mk.
  set (s' := <["RelayState" := _]> _).
  assert (Hrelay : s' !! "RelayState"
                   = Some (VStr match params request !! "RelayState" with
                                | Some relay_state => relay_state
                                | None => ""
                                end)).
  { subst s'. rewrite lookup_insert_eq. unfold dict_get_default.
    destruct (params request !! "RelayState"); reflexivity. }
  assert (Hbranch : forall request' s'',
             outcome (login_process import_string registry request' s'')
             = Ok (RStr "RelayState is missing") ->
             s'' !! "RelayState" = None).
  { intros request' s'' H. rewrite login_process_run in H.
    destruct (IdentityProvider.login_required_impl
                (saml2_idp_cls registry) request' s''); [| discriminate].
    destruct (s'' !! "SAMLRequest") as [v1 |]; [| discriminate].
    destruct (s'' !! "RelayState") as [v2 |]; [| reflexivity].
    cbv zeta in H. rewrite outcome_mk in H.
    destruct (login_process_loop_outcome v1 v2
                (IdentityProvider.get_sp_handlers import_string
                   (new_idp registry request') s'') 0 s'')
      as [(c & Hc) | (e & He)]; congruence. }
  assert (Hkept : forall s'' : Session,
             s' ⊆ s'' -> s'' !! "RelayState" <> None).
  { intros s'' Hsub H.
    rewrite (lookup_weaken _ _ _ _ Hrelay Hsub) in H. discriminate. }
  split; [exact Hrelay |]. split.
  - subst s'. rewrite lookup_insert_ne by discriminate.
    apply lookup_insert_eq.
  - split.
    + intros request' s'' Hsub H.
      exact (Hkept s'' Hsub (Hbranch _ _ H)).
    + intros request' s'' H. split; [exact (Hbranch _ _ H) |].
      intros Hsub. exact (Hkept s'' Hsub (Hbranch _ _ H)).
Qed.

(** The loop of [logout] ends in a redirect or in an exception: the view
    never gets to render its template. *)
Lemma logout_loop_outcome (idp : IdentityProvider.t) (request : Request)
    (args : list string) :
  forall s,
    (exists url, outcome (logout_loop import_string idp request args s)
                 = Ok (RFound url))
    \/ (exists e, outcome (logout_loop import_string idp request args s)
                  = Raise e).
Proof.
  induction args as [| arg rest IH]; intros s.
  - right. eexists. reflexivity.
  - simpl. destruct (params request !! arg) as [redirect_url |];
      [| apply IH].
    destruct (str_bool redirect_url); [| apply IH].
    unfold bind.
    destruct (IdentityProvider.is_valid_redirect import_string idp
                redirect_url s) as [[[b | e] s1] t1].
    + destruct b.
      * left. exists redirect_url. reflexivity.
      * specialize (IH s1).
        destruct (logout_loop import_string idp request rest s1)
          as [[r s2] t2].
        exact IH.
    + right. eexists. reflexivity.
Qed.

Lemma logout_never_renders (request : Request) (s : Session)
    (context : gmap string pyval) :
  outcome (logout import_string registry request s)
  <> Ok (RContext context).
Proof.
  unfold logout, bind.
  destruct (IdentityProvider.login_required _ s) as [[[u | e] s1] t1];
    [| discriminate].
  destruct (IdentityProvider.logout _ s1) as [[[u' | e] s2] t2];
    [| discriminate].
  destruct (logout_loop_outcome (new_idp registry request) request
              ["RelayState"; "redirect_to"] s2) as [(url & H) | (e & H)];
    destruct (logout_loop import_string _ request _ s2) as [[r s3] t3];
    unfold outcome in *; simpl in *; congruence.
Qed.

End Views.

(** ** The properties on the example application *)

Lemma should_sign_responses_iff_both_present_witness :
  IdentityProvider.should_sign_responses
    (views.new_idp Example.registry (Example.request_with ∅)) = true
  /\ IdentityProvider.should_sign_responses
       (views.new_idp Example.registry_key_only (Example.request_with ∅))
     = false.
Proof.
  split.
  - apply (proj1 (proj2 (should_sign_responses_iff_both_present
                           (views.new_idp Example.registry
                              (Example.request_with ∅))))).
    + vm_compute. discriminate.
    + vm_compute. discriminate.
  - apply (proj1 (proj2 (proj2 (proj2
             (should_sign_responses_iff_both_present
                (views.new_idp Example.registry_key_only
                   (Example.request_with ∅))))))).
    + vm_compute. reflexivity.
    + vm_compute. discriminate.
Defined.

(** C5, as stated, fails: with a private key and no certificate configured,
    signing is disabled and [get_idp_signer()] still returns a signer. *)
Lemma get_idp_signer_without_certificate :
  let self := views.new_idp Example.registry_key_only
                (Example.request_with ∅) in
  IdentityProvider.should_sign_responses self = false
  /\ IdentityProvider.get_idp_signer self
     = Some {| signer_class := "RsaSha1Signer";
               signer_key := VKey "idp-private-key.pem" |}
  /\ IdentityProvider.get_idp_signer self <> None.
Proof.
  cbv zeta. split; [vm_compute; reflexivity |].
  split; [vm_compute; reflexivity |]. vm_compute. discriminate.
Qed.

Lemma get_idp_signer_by_private_key_witness :
  IdentityProvider.get_idp_private_key
    (views.new_idp Example.registry_key_only (Example.request_with ∅))
  <> VNone
  /\ IdentityProvider.get_idp_signer
       (views.new_idp Example.registry_key_only (Example.request_with ∅))
     = Some {| signer_class := "RsaSha1Signer";
               signer_key := VKey "idp-private-key.pem" |}.
Proof.
  assert (H : IdentityProvider.get_idp_private_key
                (views.new_idp Example.registry_key_only
                   (Example.request_with ∅)) <> VNone)
    by (vm_compute; discriminate).
  split; [exact H |].
  exact (proj1 (get_idp_signer_by_private_key
                  (views.new_idp Example.registry_key_only
                     (Example.request_with ∅))) H).
Defined.

(** C6, as stated, fails: for another name-id format the exception raised
    is a [NotImplementedError], which is not an [UnsupportedAttribute]. *)
Lemma get_user_nameid_not_UnsupportedAttribute :
  exists e,
    IdentityProvider.get_user_nameid
      (views.new_idp Example.registry (Example.request_with ∅))
      Example.alex Example.persistent_urn = Raise e
    /\ exn_class e = "NotImplementedError"
    /\ isinstance e "UnsupportedAttribute" = false.
Proof.
  eexists. split; [vm_compute; reflexivity |].
  split; vm_compute; reflexivity.
Qed.

Lemma get_user_nameid_email_only_witness :
  IdentityProvider.get_user_nameid
    (views.new_idp Example.registry (Example.request_with ∅))
    Example.alex IdentityProvider.emailAddress_urn = Ok "alex@example.com"
  /\ IdentityProvider.get_user_nameid
       (views.new_idp Example.registry (Example.request_with ∅))
       Example.alex Example.persistent_urn
     = Raise (NotImplementedError
                ("Can't fetch attribute " +:+ Example.persistent_urn
                 +:+ " from user")).
Proof.
  split.
  - exact (proj1 (get_user_nameid_email_only
                    (views.new_idp Example.registry (Example.request_with ∅))
                    Example.alex IdentityProvider.emailAddress_urn)
                 eq_refl).
  - apply (proj2 (get_user_nameid_email_only
                    (views.new_idp Example.registry (Example.request_with ∅))
                    Example.alex Example.persistent_urn)).
    vm_compute. discriminate.
Defined.

Lemma login_process_first_match_witness :
  let run := views.login_process Example.import_string Example.registry3
               (Example.request_with ∅)
               (Example.captured Example.sp_issuer "relay") in
  let handlers :=
    IdentityProvider.get_sp_handlers Example.import_string
      (views.new_idp Example.registry3 (Example.request_with ∅))
      (Example.captured Example.sp_issuer "relay") in
  EvCall 1 MGetResponseContext true ∈ events run
  /\ exists handler context,
       handlers !! 1 = Some (Ok handler)
       /\ views.trial_result handler (VStr Example.sp_issuer) (VStr "relay")
          = Ok context
       /\ outcome run = Ok (views.RContext (with_idp context))
       /\ (forall key v, context !! key = Some v ->
                         with_idp context !! key = Some v)
       /\ (forall ev j, ev ∈ events run -> event_handler ev = Some j -> j <= 1)
       /\ (forall j, j < 1 ->
             EvLogException j ∈ events run
             /\ exists handler_j e,
                  handlers !! j = Some (Ok handler_j)
                  /\ views.trial_result handler_j
                       (VStr Example.sp_issuer) (VStr "relay") = Raise e
                  /\ (isinstance e "CannotHandleAssertion" = true
                      \/ isinstance e "ValueError" = true)).
Proof.
  cbv zeta.
  assert (H : EvCall 1 MGetResponseContext true
                ∈ events (views.login_process Example.import_string
                            Example.registry3 (Example.request_with ∅)
                            (Example.captured Example.sp_issuer "relay"))).
  { apply (bool_decide_unpack _). vm_compute. exact I. }
  split; [exact H |].
  exact (login_process_first_match Example.import_string Example.registry3
           (Example.request_with ∅)
           (Example.captured Example.sp_issuer "relay")
           (VStr Example.sp_issuer) (VStr "relay") 1
           eq_refl eq_refl H).
Defined.

Lemma login_process_no_handler_witness :
  views.login_process Example.import_string
    (Example.registry_with (Example.idp_config None None)
       [Example.sp "examples.idp.RejectingSPHandler" "" "";
        Example.sp_example])
    (Example.request_with ∅)
    (Example.captured "http://unregistered.example/" "relay")
  = (Raise (CannotHandleAssertion views.no_handler_msg),
     Example.captured "http://unregistered.example/" "relay",
     [EvLoginRequired true;
      EvConstruct 0 true; EvCall 0 MParse false; EvLogException 0;
      EvConstruct 1 true; EvCall 1 MParse false; EvLogException 1])
  /\ outcome
       (views.login_process Example.import_string
          (Example.registry_with (Example.idp_config None None)
             [Example.sp "examples.idp.RejectingSPHandler" "" "";
              Example.sp_example])
          (Example.request_with ∅)
          (Example.captured "http://unregistered.example/" "relay"))
     = Raise (CannotHandleAssertion views.no_handler_msg).
Proof.
  split; [vm_compute; reflexivity |].
  refine (proj1 (login_process_no_handler Example.import_string
                   (Example.registry_with (Example.idp_config None None)
                      [Example.sp "examples.idp.RejectingSPHandler" "" "";
                       Example.sp_example])
                   (Example.request_with ∅)
                   (Example.captured "http://unregistered.example/" "relay")
                   (VStr "http://unregistered.example/") (VStr "relay")
                   eq_refl eq_refl eq_refl _)).
  apply Forall_cons. split.
  - eexists _, _. split; [reflexivity |]. split; [reflexivity |].
    left. reflexivity.
  - apply Forall_cons. split; [| apply Forall_nil_2].
    eexists _, _. split; [reflexivity |]. split; [reflexivity |].
    left. reflexivity.
Defined.

Lemma login_process_fallback_policy_witness :
  let s := Example.captured Example.sp_issuer "relay" in
  let run := views.login_process Example.import_string
               Example.registry_broken_first (Example.request_with ∅) s in
  let handlers :=
    IdentityProvider.get_sp_handlers Example.import_string
      (views.new_idp Example.registry_broken_first (Example.request_with ∅))
      s in
  EvCall 0 MParse false ∈ events run
  /\ outcome run = Raise (KeyError "'Issuer'")
  /\ exists handler e,
       handlers !! 0 = Some (Ok handler)
       /\ views.trial_result handler (VStr Example.sp_issuer) (VStr "relay")
          = Raise e
       /\ (views.caught e = true <->
             isinstance e "CannotHandleAssertion" = true
             \/ isinstance e "ValueError" = true)
       /\ (views.caught e = true ->
             EvLogException 0 ∈ events run
             /\ outcome run
                = outcome (views.login_process_loop 1 (drop 1 handlers)
                             (VStr Example.sp_issuer) (VStr "relay") s)
             /\ (forall r, handlers !! 1 = Some r ->
                   EvConstruct 1 (is_ok r) ∈ events run)
             /\ (forall next, handlers !! 1 = Some (Ok next) ->
                   EvCall 1 MParse
                     (is_ok (SPHandler.parse_authn_request next
                               (VStr Example.sp_issuer)))
                     ∈ events run)
             /\ (handlers !! 1 = None ->
                   outcome run
                   = Raise (CannotHandleAssertion views.no_handler_msg)))
       /\ (views.caught e = false ->
             outcome run = Raise e
             /\ forall ev j, ev ∈ events run ->
                             event_handler ev = Some j -> j <= 0).
Proof.
  cbv zeta.
  assert (H : EvCall 0 MParse false
                ∈ events (views.login_process Example.import_string
                            Example.registry_broken_first
                            (Example.request_with ∅)
                            (Example.captured Example.sp_issuer "relay"))).
  { apply (bool_decide_unpack _). vm_compute. exact I. }
  split; [exact H |]. split; [vm_compute; reflexivity |].
  exact (login_process_fallback_policy Example.import_string
           Example.registry_broken_first (Example.request_with ∅)
           (Example.captured Example.sp_issuer "relay")
           (VStr Example.sp_issuer) (VStr "relay") 0 MParse
           eq_refl eq_refl H).
Defined.

Lemma login_process_missing_session_state_witness :
  Example.logged_in !! "SAMLRequest" = None
  /\ (outcome (views.login_process Example.import_string Example.registry
                 (Example.request_with ∅) Example.logged_in)
      = Ok (views.RStr "SAMLRequest is misssing")
      \/ outcome (views.login_process Example.import_string Example.registry
                    (Example.request_with ∅) Example.logged_in)
         = Ok (views.RStr "RelayState is missing"))
  /\ events (views.login_process Example.import_string Example.registry
               (Example.request_with ∅) Example.logged_in)
     = [EvLoginRequired true].
Proof.
  assert (H : Example.logged_in !! "SAMLRequest" = None) by reflexivity.
  split; [exact H |].
  destruct (login_process_missing_session_state Example.import_string
              Example.registry (Example.request_with ∅) Example.logged_in
              eq_refl (or_introl H)) as (Hout & Hev & _).
  split; [exact Hout | exact Hev].
Defined.

Lemma login_begin_captures_request_witness :
  let request :=
    Example.request_with
      (<["SAMLRequest" := Example.sp_issuer]> (<["RelayState" := "relay"]> ∅))
  in
  views.login_begin request Example.logged_in
  = (Ok (views.RFound
           "http://localhost:8000/pyramid_saml2_idp_login_process"),
     Example.captured Example.sp_issuer "relay", [])
  /\ views.login_begin (Example.request_with ∅) Example.logged_in
     = (Ok (views.RStr "SAMLRequest is missing"), Example.logged_in, []).
Proof.
  cbv zeta. split.
  - refine (eq_trans
              (proj2 (login_begin_captures_request
                        (Example.request_with
                           (<["SAMLRequest" := Example.sp_issuer]>
                              (<["RelayState" := "relay"]> ∅)))
                        Example.logged_in)
                     Example.sp_issuer eq_refl _) _).
    + discriminate.
    + vm_compute. reflexivity.
  - exact (proj1 (login_begin_captures_request (Example.request_with ∅)
                    Example.logged_in) (or_introl eq_refl)).
Defined.

Lemma login_begin_establishes_relay_state_witness :
  let request :=
    Example.request_with (<["SAMLRequest" := Example.sp_issuer]> ∅) in
  let s' := session_after (views.login_begin request Example.logged_in) in
  s' !! "RelayState" = Some (VStr "")
  /\ s' !! "SAMLRequest" = Some (VStr Example.sp_issuer)
  /\ outcome (views.login_process Example.import_string Example.registry
                (Example.request_with ∅) s')
     <> Ok (views.RStr "RelayState is missing").
Proof.
  cbv zeta.
  assert (Hparam : params (Example.request_with
                             (<["SAMLRequest" := Example.sp_issuer]> ∅))
                   !! "SAMLRequest" = Some Example.sp_issuer)
    by (vm_compute; reflexivity).
  assert (Hne : Example.sp_issuer <> "") by discriminate.
  destruct (login_begin_establishes_relay_state Example.import_string
              Example.registry
              (Example.request_with (<["SAMLRequest" := Example.sp_issuer]> ∅))
              Example.logged_in Example.sp_issuer Hparam Hne)
    as (Hrelay & Hsaml & Hnot & _).
  split; [exact Hrelay |]. split; [exact Hsaml |].
  apply Hnot. reflexivity.
Defined.

(** C9, on the example application: an authenticated request to the logout
    view that names no redirect target, or one no handler accepts, logs the
    user out and then stops at the unbound name [context] with a
    [NameError] instead of rendering the logged-out page; with a target a
    handler accepts, the view redirects there. *)
Theorem logout_raises_NameError :
  views.logout Example.import_string Example.registry
    (Example.request_with ∅) Example.logged_in
  = (Raise (NameError "name 'context' is not defined"), ∅,
     [EvLoginRequired true; EvLogout true])
  /\ outcome (views.logout Example.import_string Example.registry
               (Example.request_with
                  (<["RelayState" := "http://elsewhere.example/"]> ∅))
               Example.logged_in)
     = Raise (NameError "name 'context' is not defined")
  /\ outcome (views.logout Example.import_string Example.registry
               (Example.request_with
                  (<["redirect_to" := Example.sp_acs]> ∅))
               Example.logged_in)
     = Ok (views.RFound Example.sp_acs).
Proof.
  split; [vm_compute; reflexivity |].
  split; vm_compute; reflexivity.
Qed.

Lemma login_process_first_accepting_witness :
  outcome (views.login_process Example.import_string Example.registry3
             (Example.request_with ∅)
             (Example.captured Example.sp_issuer "relay"))
  = Ok (views.RContext
          (with_idp (<["acs_url" := VStr Example.sp_acs]>
                       (<["saml_response" := VStr "<Response/>"]>
                          (<["relay_state" := VStr "relay"]> ∅)))))
  /\ EvCall 1 MGetResponseContext true
       ∈ events (views.login_process Example.import_string Example.registry3
                   (Example.request_with ∅)
                   (Example.captured Example.sp_issuer "relay")).
Proof.
  refine (login_process_first_accepting Example.import_string
            Example.registry3 (Example.request_with ∅)
            (Example.captured Example.sp_issuer "relay")
            (VStr Example.sp_issuer) (VStr "relay") 1
            (Example.accepting_handler Example.sp_issuer Example.sp_acs)
            _ eq_refl eq_refl eq_refl eq_refl eq_refl _).
  intros m Hm. destruct m as [| m]; [| lia].
  eexists. split; [reflexivity |].
  eexists _, _. split; [reflexivity |]. split; reflexivity.
Defined.

(** * Further properties of the views and of the IdP *)

(** ** [login_process]: authentication, construction errors, results *)
Section MoreLoginProcess.
Import views.

Variable import_string : string -> result IdentityProvider.handler_class.
Variable registry : Registry.

(** The run of the [logout] view, one branch after the other. *)
Lemma logout_run (request : Request) (s : Session) :
  logout import_string registry request s =
    match IdentityProvider.login_required_impl
            (saml2_idp_cls registry) request s with
    | Raise e => (Raise e, s, [EvLoginRequired false])
    | Ok _ =>
        match IdentityProvider.logout_impl
                (saml2_idp_cls registry) request s with
        | Raise e => (Raise e, s, [EvLoginRequired true; EvLogout false])
        | Ok s1 =>
            let x := logout_loop import_string (new_idp registry request)
                       request ["RelayState"; "redirect_to"] s1 in
            (outcome x, session_after x,
             EvLoginRequired true :: EvLogout true :: events x)
        end
    end.
Proof.
  unfold logout, bind, IdentityProvider.login_required,
    IdentityProvider.logout.
  cbn [new_idp IdentityProvider.class_of IdentityProvider.request].
  destruct (IdentityProvider.login_required_impl
              (saml2_idp_cls registry) request s) as [u | e];
    [| reflexivity].
  cbn [is_ok].
  destruct (IdentityProvider.logout_impl
              (saml2_idp_cls registry) request s) as [s1 | e];
    [| reflexivity].
  cbv zeta.
  destruct (logout_loop import_string _ request _ s1) as [[r s2] t].
  reflexivity.
Qed.

(** Both views that call [login_required] stop there when it raises: the
    exception is the view's outcome, nothing else is called (no handler is
    built, [idp.logout()] is not reached) and the session is untouched. *)
Theorem views_require_authentication
    (request : Request) (s : Session) (e : exn) :
  IdentityProvider.login_required_impl (saml2_idp_cls registry) request s
  = Raise e ->
  login_process import_string registry request s
  = (Raise e, s, [EvLoginRequired false])
  /\ logout import_string registry request s
     = (Raise e, s, [EvLoginRequired false]).
Proof.
  intros H. rewrite login_process_run, logout_run, H. split; reflexivity.
Qed.

(** The handler at position [i] of the generator is built from the [i]-th
    registration alone. *)
Lemma get_sp_handlers_lookup (self : IdentityProvider.t) (s : Session)
    (i : nat) :
  IdentityProvider.get_sp_handlers import_string self s !! i =
    (fun config =>
       match CLASS config with
       | None => Raise (KeyError "'CLASS'")
       | Some path =>
           result_bind (import_string path)
             (fun c => c self s (default ∅ (OPTIONS config)))
       end) <$> IdentityProvider.get_service_providers self !! i.
Proof.
  unfold IdentityProvider.get_sp_handlers. apply list_lookup_fmap.
Qed.

(** The loop, when it gets to a position where the generator raises. *)
Lemma login_process_loop_at (saml_request relay_state : pyval)
    (gen : list (result SPHandler.t)) (s : Session) (i : nat)
    (r : result SPHandler.t) :
  gen !! i = Some r ->
  prefix_falls_through gen saml_request relay_state i ->
  exists pre,
    (forall ev, ev ∈ pre -> exists j, event_handler ev = Some j /\ j < i)
    /\ login_process_loop 0 gen saml_request relay_state s =
         let x := login_process_loop i (r :: drop (S i) gen)
                    saml_request relay_state s in
         (outcome x, session_after x, pre ++ events x).
Proof.
  intros Hr Hpre.
  destruct (login_process_loop_skip saml_request relay_state i gen 0 Hpre)
    as (pre & Hbound & _ & Heq).
  simpl in Hbound, Heq. rewrite (drop_S _ _ _ Hr) in Heq.
  exists pre. split; [exact Hbound | apply Heq].
Qed.

(** An exception raised while the generator builds the handler at position
    [i] (a registration without ['CLASS'], a failed import, a constructor
    that raises) is raised by [login_process] as it is, whatever its class:
    the generator is advanced outside the [try] block. No method of that
    handler and no later handler is touched. *)
Theorem login_process_construction_error
    (request : Request) (s : Session) (saml_request relay_state : pyval)
    (i : nat) (e : exn) :
  let run := login_process import_string registry request s in
  let handlers :=
    IdentityProvider.get_sp_handlers import_string
      (new_idp registry request) s in
  IdentityProvider.login_required_impl (saml2_idp_cls registry) request s
  = Ok tt ->
  s !! "SAMLRequest" = Some saml_request ->
  s !! "RelayState" = Some relay_state ->
  handlers !! i = Some (Raise e) ->
  prefix_falls_through handlers saml_request relay_state i ->
  outcome run = Raise e
  /\ EvConstruct i false ∈ events run
  /\ (forall m ok, EvCall i m ok ∉ events run)
  /\ (forall ev j, ev ∈ events run -> event_handler ev = Some j -> j <= i).
Proof.
  intros run handlers Hlogin Hsaml Hrelay Hr Hpre. subst run.
  rewrite login_process_run, Hlogin, Hsaml, Hrelay. cbv zeta.
  fold handlers.
  destruct (login_process_loop_at saml_request relay_state handlers s i _
              Hr Hpre) as (pre & Hbound & Heq).
  rewrite Heq. cbv zeta. rewrite login_process_loop_broken.
  rewrite !outcome_mk, !events_mk. split; [reflexivity |].
  split; [| split].
  - apply list_elem_of_further. apply elem_of_app. right.
    apply list_elem_of_here.
  - intros m ok H. apply elem_of_cons in H as [H | H]; [discriminate |].
    apply elem_of_app in H as [H | H].
    + destruct (Hbound _ H) as (j & Hj & Hlt). simpl in Hj.
      injection Hj as <-. lia.
    + apply list_elem_of_singleton in H. discriminate.
  - intros ev j H Hj. apply elem_of_cons in H as [-> | H];
      [discriminate |].
    apply elem_of_app in H as [H | H].
    + destruct (Hbound _ H) as (j' & Hj' & Hlt).
      rewrite Hj in Hj'. injection Hj' as <-. lia.
    + apply list_elem_of_singleton in H as ->. simpl in Hj.
      injection Hj as <-. lia.
Qed.

(** A trial that fails with an exception the [except] clause does not
    catch ends the run, when every handler before it fell through. *)
Lemma login_process_fatal
    (request : Request) (s : Session) (saml_request relay_state : pyval)
    (i : nat) (handler : SPHandler.t) (e : exn) :
  let run := login_process import_string registry request s in
  let handlers :=
    IdentityProvider.get_sp_handlers import_string
      (new_idp registry request) s in
  IdentityProvider.login_required_impl (saml2_idp_cls registry) request s
  = Ok tt ->
  s !! "SAMLRequest" = Some saml_request ->
  s !! "RelayState" = Some relay_state ->
  handlers !! i = Some (Ok handler) ->
  prefix_falls_through handlers saml_request relay_state i ->
  trial_result handler saml_request relay_state = Raise e ->
  caught e = false ->
  outcome run = Raise e
  /\ (forall ev j, ev ∈ events run -> event_handler ev = Some j -> j <= i).
Proof.
  intros run handlers Hlogin Hsaml Hrelay Hr Hpre Ht Hc. subst run.
  rewrite login_process_run, Hlogin, Hsaml, Hrelay. cbv zeta.
  fold handlers.
  destruct (login_process_loop_at saml_request relay_state handlers s i _
              Hr Hpre) as (pre & Hbound & Heq).
  rewrite Heq. cbv zeta. rewrite login_process_loop_yield, Ht, Hc.
  cbv zeta. rewrite !outcome_mk, !events_mk. split; [reflexivity |].
  intros ev j H Hj. apply elem_of_cons in H as [-> | H]; [discriminate |].
  apply elem_of_app in H as [H | H].
  - destruct (Hbound _ H) as (j' & Hj' & Hlt).
    rewrite Hj in Hj'. injection Hj' as <-. lia.
  - apply elem_of_cons in H as [-> | H].
    + simpl in Hj. injection Hj as <-. lia.
    + apply trial_log_handler in H. rewrite Hj in H.
      injection H as <-. lia.
Qed.

(** The failure of the default [get_user_nameid] is not one the resolver
    falls back on: when the trial of handler [i] ends with the exception
    [get_user_nameid] raises for an attribute it does not support,
    [login_process] raises that [NotImplementedError] and no handler after
    position [i] is constructed or called. *)
Theorem unsupported_nameid_aborts_resolution
    (request : Request) (s : Session) (saml_request relay_state : pyval)
    (i : nat) (handler : SPHandler.t) (user : User) (attribute : string)
    (e : exn) :
  let run := login_process import_string registry request s in
  let handlers :=
    IdentityProvider.get_sp_handlers import_string
      (new_idp registry request) s in
  IdentityProvider.login_required_impl (saml2_idp_cls registry) request s
  = Ok tt ->
  s !! "SAMLRequest" = Some saml_request ->
  s !! "RelayState" = Some relay_state ->
  handlers !! i = Some (Ok handler) ->
  prefix_falls_through handlers saml_request relay_state i ->
  IdentityProvider.get_user_nameid (new_idp registry request) user attribute
  = Raise e ->
  trial_result handler saml_request relay_state = Raise e ->
  caught e = false
  /\ exn_class e = "NotImplementedError"
  /\ outcome run = Raise e
  /\ (forall ev j, ev ∈ events run -> event_handler ev = Some j -> j <= i).
Proof.
  intros run handlers Hlogin Hsaml Hrelay Hr Hpre Hid Ht.
  assert (He : e = NotImplementedError
                     ("Can't fetch attribute " +:+ attribute
                      +:+ " from user")).
  { unfold IdentityProvider.get_user_nameid, IdentityProvider.get_user_email
      in Hid.
    destruct (String.eqb attribute IdentityProvider.emailAddress_urn);
      [discriminate |]. injection Hid as <-. reflexivity. }
  assert (Hc : caught e = false) by (rewrite He; reflexivity).
  split; [exact Hc |]. split; [rewrite He; reflexivity |].
  exact (login_process_fatal request s saml_request relay_state i handler e
           Hlogin Hsaml Hrelay Hr Hpre Ht Hc).
Qed.

(** A context the loop returns is the context of a handler whose trial
    succeeded, after every handler before it fell through. *)
Lemma login_process_loop_context_origin (saml_request relay_state : pyval)
    (gen : list (result SPHandler.t)) :
  forall i s d,
    outcome (login_process_loop i gen saml_request relay_state s)
    = Ok (RContext d) ->
    exists n handler context,
      gen !! n = Some (Ok handler)
      /\ trial_result handler saml_request relay_state = Ok context
      /\ d = with_idp context
      /\ prefix_falls_through gen saml_request relay_state n.
Proof.
  induction gen as [| [handler | e] rest IH]; intros i s d H.
  - discriminate.
  - rewrite login_process_loop_yield in H. cbv zeta in H.
    destruct (trial_result handler saml_request relay_state)
      as [c | e] eqn:Ht.
    + rewrite outcome_mk in H. injection H as <-.
      exists 0, handler, c. split; [reflexivity |]. split; [exact Ht |].
      split; [reflexivity |]. intros m Hm. lia.
    + destruct (caught e) eqn:Hc; [| discriminate].
      rewrite outcome_mk in H.
      destruct (IH _ _ _ H) as (n & h & c & Hn & Htn & Hd & Hpre).
      exists (S n), h, c. split; [exact Hn |]. split; [exact Htn |].
      split; [exact Hd |].
      intros [| m] Hm.
      * exists (Ok handler). split; [reflexivity |].
        exists handler, e. auto.
      * apply (Hpre m). lia.
  - discriminate.
Qed.

(** Whatever [login_process] returns for the renderer comes from a
    handler: a returned dict is [{"idp": idp, **context}] for the context
    of a configured handler whose trial succeeded on the session's
    SAMLRequest and RelayState, after every handler before it fell through.
    Its keys are those of the context and ["idp"]; under ["idp"] it holds
    the handler's own value if the context has that key, the IdP
    otherwise. *)
Theorem login_process_context_origin
    (request : Request) (s : Session) (d : gmap string pyval) :
  let run := login_process import_string registry request s in
  let handlers :=
    IdentityProvider.get_sp_handlers import_string
      (new_idp registry request) s in
  outcome run = Ok (RContext d) ->
  exists saml_request relay_state i handler context,
    s !! "SAMLRequest" = Some saml_request
    /\ s !! "RelayState" = Some relay_state
    /\ handlers !! i = Some (Ok handler)
    /\ trial_result handler saml_request relay_state = Ok context
    /\ prefix_falls_through handlers saml_request relay_state i
    /\ d = with_idp context
    /\ dom d = dom context ∪ {["idp"]}
    /\ d !! "idp" = Some (default VIdp (context !! "idp"))
    /\ (forall key, key <> "idp" -> d !! key = context !! key).
Proof.
  intros run handlers H. subst run. rewrite login_process_run in H.
  destruct (IdentityProvider.login_required_impl
              (saml2_idp_cls registry) request s); [| discriminate].
  destruct (s !! "SAMLRequest") as [saml_request |]; [| discriminate].
  destruct (s !! "RelayState") as [relay_state |]; [| discriminate].
  cbv zeta in H. rewrite outcome_mk in H.
  destruct (login_process_loop_context_origin _ _ _ _ _ _ H)
    as (i & handler & context & Hr & Ht & -> & Hpre).
  exists saml_request, relay_state, i, handler, context.
  repeat (split; [first [reflexivity | assumption] |]).
  unfold with_idp. split; [| split].
  - rewrite dom_union_L, dom_singleton_L. reflexivity.
  - rewrite lookup_union. destruct (context !! "idp") as [v |].
    + rewrite lookup_singleton_eq. reflexivity.
    + rewrite lookup_singleton_eq. reflexivity.
  - intros key Hkey. rewrite lookup_union, lookup_singleton_ne by congruence.
    destruct (context !! key); reflexivity.
Qed.

(** [login_process] returns one of its two error strings only when the key
    it names is missing from the session, and it never returns a
    redirect. *)
Theorem login_process_error_strings
    (request : Request) (s : Session) :
  let run := login_process import_string registry request s in
  (forall msg, outcome run = Ok (RStr msg) ->
     (msg = "SAMLRequest is misssing" /\ s !! "SAMLRequest" = None)
     \/ (msg = "RelayState is missing"
         /\ is_Some (s !! "SAMLRequest") /\ s !! "RelayState" = None))
  /\ (forall url, outcome run <> Ok (RFound url)).
Proof.
  intros run. subst run. rewrite login_process_run.
  destruct (IdentityProvider.login_required_impl
              (saml2_idp_cls registry) request s).
  2: { split; [intros msg H | intros url H]; discriminate. }
  destruct (s !! "SAMLRequest") as [saml_request |].
  2: { split; [intros msg H | intros url H; discriminate].
       rewrite outcome_mk in H. injection H as <-. left. auto. }
  destruct (s !! "RelayState") as [relay_state |].
  2: { split; [intros msg H | intros url H; discriminate].
       rewrite outcome_mk in H. injection H as <-. right. eauto. }
  cbv zeta. rewrite outcome_mk.
  destruct (login_process_loop_outcome saml_request relay_state
              (IdentityProvider.get_sp_handlers import_string
                 (new_idp registry request) s) 0 s)
    as [(c & Hc) | (e & He)].
  - rewrite Hc. split; [intros msg H | intros url H]; discriminate.
  - rewrite He. split; [intros msg H | intros url H]; discriminate.
Qed.

(** The keys [login_begin] does not write. *)
Lemma login_begin_keeps (request : Request) (s : Session) (key : string) :
  key <> "SAMLRequest" -> key <> "RelayState" ->
  session_after (login_begin request s) !! key = s !! key.
Proof.
  intros H1 H2. unfold login_begin.
  destruct (params request !! "SAMLRequest") as [saml_request |];
    [| reflexivity].
  destruct (str_bool saml_request); [| reflexivity].
  unfold bind, session_set, ret. rewrite session_after_mk.
  rewrite lookup_insert_ne by congruence.
  rewrite lookup_insert_ne by congruence. reflexivity.
Qed.

(** [login_begin] writes two keys and no other: every other key of the
    session (the logged-in user among them) is as it was, whether the step
    succeeds or not. *)
Theorem login_begin_frame (request : Request) (s : Session) (key : string) :
  key <> "SAMLRequest" -> key <> "RelayState" ->
  session_after (login_begin request s) !! key = s !! key.
Proof. apply login_begin_keeps. Qed.

(** A later successful [login_begin] replaces what an earlier one captured:
    the session is the one the later request alone would have produced. A
    failed one (no SAMLRequest) leaves the earlier capture in place. *)
Theorem login_begin_last_capture_wins
    (first later : Request) (s : Session) :
  let s1 := session_after (login_begin first s) in
  (forall saml_request,
     params later !! "SAMLRequest" = Some saml_request ->
     saml_request <> "" ->
     session_after (login_begin later s1)
     = session_after (login_begin later s))
  /\ (params later !! "SAMLRequest" = None
      \/ params later !! "SAMLRequest" = Some "" ->
      session_after (login_begin later s1) = s1).
Proof.
  intros s1. split.
  - intros saml_request Hsaml Hne.
    rewrite !(login_begin_stores _ _ _ Hsaml Hne), !session_after_mk.
    apply map_eq. intros k.
    destruct (decide (k = "RelayState")) as [-> | Hk1].
    { rewrite !lookup_insert_eq. reflexivity. }
    rewrite !(lookup_insert_ne _ "RelayState") by congruence.
    destruct (decide (k = "SAMLRequest")) as [-> | Hk2].
    { rewrite !lookup_insert_eq. reflexivity. }
    rewrite !(lookup_insert_ne _ "SAMLRequest") by congruence.
    subst s1. apply login_begin_keeps; assumption.
  - intros [H | H]; unfold login_begin; rewrite H; reflexivity.
Qed.

(** The begin and process steps compose: on the session a successful
    [login_begin] leaves, an authenticated [login_process] runs the
    resolution loop with exactly the SAMLRequest parameter and the
    RelayState parameter (the empty string when absent) as the values its
    handlers see; it returns neither of its error strings. *)
Theorem login_begin_then_process
    (request request' : Request) (s : Session) (saml_request : string) :
  let s' := session_after (login_begin request s) in
  let relay_state :=
    match params request !! "RelayState" with
    | Some relay_state => relay_state
    | None => ""
    end in
  params request !! "SAMLRequest" = Some saml_request ->
  saml_request <> "" ->
  IdentityProvider.login_required_impl (saml2_idp_cls registry) request' s'
  = Ok tt ->
  login_process import_string registry request' s' =
    (let x := login_process_loop 0
                (IdentityProvider.get_sp_handlers import_string
                   (new_idp registry request') s')
                (VStr saml_request) (VStr relay_state) s' in
     (outcome x, session_after x, EvLoginRequired true :: events x))
  /\ (forall msg,
        outcome (login_process import_string registry request' s')
        <> Ok (RStr msg)).
Proof.
  intros s' relay_state Hsaml Hne Hlogin.
  assert (Hs1 : s' !! "SAMLRequest" = Some (VStr saml_request)).
  { subst s'. rewrite (login_begin_stores _ _ _ Hsaml Hne), session_after_mk.
    rewrite lookup_insert_ne by discriminate. apply lookup_insert_eq. }
  assert (Hs2 : s' !! "RelayState" = Some (VStr relay_state)).
  { subst s' relay_state.
    rewrite (login_begin_stores _ _ _ Hsaml Hne), session_after_mk.
    rewrite lookup_insert_eq. unfold dict_get_default.
    destruct (params request !! "RelayState"); reflexivity. }
  assert (Heq : login_process import_string registry request' s' =
    (let x := login_process_loop 0
                (IdentityProvider.get_sp_handlers import_string
                   (new_idp registry request') s')
                (VStr saml_request) (VStr relay_state) s' in
     (outcome x, session_after x, EvLoginRequired true :: events x))).
  { rewrite login_process_run, Hlogin, Hs1, Hs2. reflexivity. }
  split; [exact Heq |].
  intros msg H. rewrite Heq in H. cbv zeta in H. rewrite outcome_mk in H.
  destruct (login_process_loop_outcome (VStr saml_request)
              (VStr relay_state)
              (IdentityProvider.get_sp_handlers import_string
                 (new_idp registry request') s') 0 s')
    as [(c & Hc) | (e & He)]; congruence.
Qed.

End MoreLoginProcess.

(** ** [is_valid_redirect] and the [logout] view *)
Section Redirects.
Import views.

Variable import_string : string -> result IdentityProvider.handler_class.

Local Abbreviation any_from i gen url s :=
  (IdentityProvider.any_is_valid_redirect i gen url s) (only parsing).

Lemma rejects_redirect_answer (url : string) (r : result SPHandler.t) :
  rejects_redirect url r <-> redirect_answer url r = Ok false.
Proof.
  unfold rejects_redirect, redirect_answer, result_bind. split.
  - intros (h & -> & H). exact H.
  - destruct r as [h | e]; [| discriminate]. intros H. eauto.
Qed.

(** One step of [any] at a handler the generator yields. *)
Lemma any_is_valid_redirect_yield (i : nat) (handler : SPHandler.t)
    (rest : list (result SPHandler.t)) (url : string) (s : Session) :
  any_from i (Ok handler :: rest) url s =
    match SPHandler.is_valid_redirect handler url with
    | Raise e =>
        (Raise e, s, [EvConstruct i true; EvCall i MIsValidRedirect false])
    | Ok true =>
        (Ok true, s, [EvConstruct i true; EvCall i MIsValidRedirect true])
    | Ok false =>
        let x := any_from (S i) rest url s in
        (outcome x, session_after x,
         EvConstruct i true :: EvCall i MIsValidRedirect true :: events x)
    end.
Proof.
  simpl. unfold bind, tell, call.
  destruct (SPHandler.is_valid_redirect handler url) as [[|] | e];
    try reflexivity.
  simpl. destruct (any_from (S i) rest url s) as [[r s'] t]. reflexivity.
Qed.

(** The first position that does not answer [False] decides. *)
Lemma any_is_valid_redirect_head (i : nat) (r : result SPHandler.t)
    (rest : list (result SPHandler.t)) (url : string) (s : Session) :
  redirect_answer url r <> Ok false ->
  exists log,
    (forall ev, ev ∈ log -> event_handler ev = Some i)
    /\ any_from i (r :: rest) url s = (redirect_answer url r, s, log).
Proof.
  intros Hr. destruct r as [handler | e].
  - rewrite any_is_valid_redirect_yield.
    unfold redirect_answer, result_bind in *.
    destruct (SPHandler.is_valid_redirect handler url) as [[|] | e];
      [| congruence |].
    + eexists. split; [| reflexivity]. intros ev H.
      apply elem_of_cons in H as [-> | H]; [reflexivity |].
      apply list_elem_of_singleton in H as ->. reflexivity.
    + eexists. split; [| reflexivity]. intros ev H.
      apply elem_of_cons in H as [-> | H]; [reflexivity |].
      apply list_elem_of_singleton in H as ->. reflexivity.
  - eexists. split; [| reflexivity]. intros ev H.
    apply list_elem_of_singleton in H as ->. reflexivity.
Qed.

(** Past a prefix of handlers that answer [False]. *)
Lemma any_is_valid_redirect_skip (url : string) (n : nat) :
  forall gen i,
    (forall m, m < n -> exists r, gen !! m = Some r /\ rejects_redirect url r) ->
    exists pre,
      (forall ev, ev ∈ pre ->
         exists j, event_handler ev = Some j /\ j < i + n)
      /\ forall s,
           any_from i gen url s =
             let x := any_from (i + n) (drop n gen) url s in
             (outcome x, session_after x, pre ++ events x).
Proof.
  induction n as [| n IH]; intros gen i Hpre.
  - exists []. split.
    + intros ev H. apply elem_of_nil in H. contradiction.
    + intros s. rewrite Nat.add_0_r, drop_0. cbv zeta. simpl.
      symmetry. apply run_eta.
  - destruct (Hpre 0 ltac:(lia)) as (r & Hr & handler & -> & Hans).
    destruct gen as [| r0 rest]; [discriminate |].
    simpl in Hr. injection Hr as ->.
    destruct (IH rest (S i)) as (pre & Hbound & Heq).
    { intros m Hm. apply (Hpre (S m)). lia. }
    exists (EvConstruct i true :: EvCall i MIsValidRedirect true :: pre).
    split.
    + intros ev H. apply elem_of_cons in H as [-> | H].
      { exists i. split; [reflexivity | lia]. }
      apply elem_of_cons in H as [-> | H].
      { exists i. split; [reflexivity | lia]. }
      destruct (Hbound _ H) as (j & Hj & Hlt).
      exists j. split; [exact Hj | lia].
    + intros s. rewrite any_is_valid_redirect_yield, Hans. cbv zeta.
      rewrite Heq. cbv zeta.
      replace (i + S n) with (S i + n) by lia. reflexivity.
Qed.

(** [any] leaves the session as it is. *)
Lemma any_is_valid_redirect_session (url : string)
    (gen : list (result SPHandler.t)) :
  forall i s, session_after (any_from i gen url s) = s.
Proof.
  induction gen as [| [handler | e] rest IH]; intros i s.
  - reflexivity.
  - rewrite any_is_valid_redirect_yield.
    destruct (SPHandler.is_valid_redirect handler url) as [[|] | e];
      try reflexivity.
    cbv zeta. rewrite session_after_mk. apply IH.
  - reflexivity.
Qed.

(** The answers [any] can give, read back on the generator. *)
Lemma any_is_valid_redirect_inv (url : string)
    (gen : list (result SPHandler.t)) :
  forall i s,
    match outcome (any_from i gen url s) with
    | Ok false => Forall (rejects_redirect url) gen
    | other =>
        exists n r,
          gen !! n = Some r /\ redirect_answer url r = other
          /\ forall m, m < n ->
               exists r', gen !! m = Some r' /\ rejects_redirect url r'
    end.
Proof.
  induction gen as [| [handler | e] rest IH]; intros i s.
  - simpl. apply Forall_nil_2.
  - rewrite any_is_valid_redirect_yield.
    destruct (SPHandler.is_valid_redirect handler url) as [[|] | e] eqn:Hans.
    + rewrite outcome_mk. exists 0, (Ok handler).
      split; [reflexivity |]. split; [exact Hans |]. intros m Hm. lia.
    + cbv zeta. rewrite outcome_mk. specialize (IH (S i) s).
      assert (Hrej : rejects_redirect url (Ok handler)).
      { exists handler. auto. }
      destruct (outcome (any_from (S i) rest url s)) as [[|] | e'].
      * destruct IH as (n & r & Hn & Hr & Hpre).
        exists (S n), r. split; [exact Hn |]. split; [exact Hr |].
        intros [| m] Hm; [exists (Ok handler); auto |].
        apply (Hpre m). lia.
      * apply Forall_cons. split; assumption.
      * destruct IH as (n & r & Hn & Hr & Hpre).
        exists (S n), r. split; [exact Hn |]. split; [exact Hr |].
        intros [| m] Hm; [exists (Ok handler); auto |].
        apply (Hpre m). lia.
    + rewrite outcome_mk. exists 0, (Ok handler).
      split; [reflexivity |]. split; [exact Hans |]. intros m Hm. lia.
  - simpl. exists 0, (Raise e). split; [reflexivity |].
    split; [reflexivity |]. intros m Hm. lia.
Qed.

Lemma is_valid_redirect_run (self : IdentityProvider.t) (url : string)
    (s : Session) :
  IdentityProvider.is_valid_redirect import_string self url s =
    any_from 0 (IdentityProvider.get_sp_handlers import_string self s) url s.
Proof.
  unfold IdentityProvider.is_valid_redirect, bind, get_session.
  destruct (any_from 0 _ url s) as [[r s'] t]. reflexivity.
Qed.

(** The first position that does not answer [False] decides
    [is_valid_redirect]. *)
Lemma is_valid_redirect_decided
    (self : IdentityProvider.t) (url : string) (s : Session)
    (n : nat) (r : result SPHandler.t) :
  let run := IdentityProvider.is_valid_redirect import_string self url s in
  let handlers := IdentityProvider.get_sp_handlers import_string self s in
  handlers !! n = Some r ->
  (forall m, m < n ->
     exists r', handlers !! m = Some r' /\ rejects_redirect url r') ->
  redirect_answer url r <> Ok false ->
  outcome run = redirect_answer url r
  /\ session_after run = s
  /\ (forall ev j, ev ∈ events run -> event_handler ev = Some j -> j <= n).
Proof.
  intros run handlers Hr Hpre Hans. subst run.
  rewrite is_valid_redirect_run. fold handlers.
  destruct (any_is_valid_redirect_skip url n handlers 0 Hpre)
    as (pre & Hbound & Heq).
  simpl in Hbound, Heq. rewrite (drop_S _ _ _ Hr) in Heq.
  destruct (any_is_valid_redirect_head n r (drop (S n) handlers) url s Hans)
    as (log & Hlog & Hhead).
  rewrite Heq, Hhead. cbv zeta.
  rewrite !outcome_mk, !session_after_mk, !events_mk.
  split; [reflexivity |]. split; [reflexivity |].
  intros ev j H Hj. apply elem_of_app in H as [H | H].
  - destruct (Hbound _ H) as (j' & Hj' & Hlt).
    rewrite Hj in Hj'. injection Hj' as <-. lia.
  - rewrite (Hlog _ H) in Hj. injection Hj as <-. lia.
Qed.

(** [IdentityProvider.is_valid_redirect] asks the handlers in configuration
    order and stops at the first position that does not answer [False]:
    its outcome is that position's answer ([True], or the exception raised
    by the handler's construction or by its method), no handler after it
    is constructed or asked, and the session is left as it was. *)
Theorem is_valid_redirect_first_answer
    (self : IdentityProvider.t) (url : string) (s : Session)
    (n : nat) (r : result SPHandler.t) :
  let run := IdentityProvider.is_valid_redirect import_string self url s in
  let handlers := IdentityProvider.get_sp_handlers import_string self s in
  handlers !! n = Some r ->
  (forall m, m < n ->
     exists r', handlers !! m = Some r' /\ rejects_redirect url r') ->
  redirect_answer url r <> Ok false ->
  outcome run = redirect_answer url r
  /\ session_after run = s
  /\ (forall ev j, ev ∈ events run -> event_handler ev = Some j -> j <= n).
Proof. apply is_valid_redirect_decided. Qed.

(** [is_valid_redirect] returns [False] exactly when every configured
    handler is constructed and answers [False]; with no handler
    configured it returns [False]. *)
Theorem is_valid_redirect_false_iff
    (self : IdentityProvider.t) (url : string) (s : Session) :
  outcome (IdentityProvider.is_valid_redirect import_string self url s)
  = Ok false
  <-> Forall (rejects_redirect url)
        (IdentityProvider.get_sp_handlers import_string self s).
Proof.
  rewrite is_valid_redirect_run.
  set (handlers := IdentityProvider.get_sp_handlers import_string self s).
  split.
  - intros H. pose proof (any_is_valid_redirect_inv url handlers 0 s) as Hinv.
    rewrite H in Hinv. exact Hinv.
  - intros Hall.
    destruct (any_is_valid_redirect_skip url (length handlers) handlers 0)
      as (pre & _ & Heq).
    { intros m Hm. destruct (lookup_lt_is_Some_2 _ _ Hm) as (r & Hr).
      exists r. split; [exact Hr |].
      rewrite Forall_lookup in Hall. exact (Hall _ _ Hr). }
    rewrite Heq, drop_all. reflexivity.
Qed.

(** [is_valid_redirect] returns [True] exactly when some handler accepts
    the URL and every handler before it was constructed and answered
    [False]. *)
Theorem is_valid_redirect_true_iff
    (self : IdentityProvider.t) (url : string) (s : Session) :
  let handlers := IdentityProvider.get_sp_handlers import_string self s in
  outcome (IdentityProvider.is_valid_redirect import_string self url s)
  = Ok true
  <-> exists n handler,
        handlers !! n = Some (Ok handler)
        /\ SPHandler.is_valid_redirect handler url = Ok true
        /\ forall m, m < n ->
             exists r', handlers !! m = Some r' /\ rejects_redirect url r'.
Proof.
  intros handlers. split.
  - intros H. rewrite is_valid_redirect_run in H. fold handlers in H.
    pose proof (any_is_valid_redirect_inv url handlers 0 s) as Hinv.
    rewrite H in Hinv. destruct Hinv as (n & r & Hn & Hr & Hpre).
    destruct r as [handler | e]; [| discriminate].
    exists n, handler. auto.
  - intros (n & handler & Hn & Hans & Hpre).
    assert (Hne : redirect_answer url (Ok handler) <> Ok false).
    { unfold redirect_answer, result_bind. rewrite Hans. discriminate. }
    destruct (is_valid_redirect_decided self url s n (Ok handler)
                Hn Hpre Hne) as (Hout & _).
    rewrite Hout. exact Hans.
Qed.

End Redirects.

Section LogoutView.
Import views.

Variable import_string : string -> result IdentityProvider.handler_class.
Variable registry : Registry.

Lemma is_valid_redirect_session (self : IdentityProvider.t) (url : string)
    (s : Session) :
  session_after (IdentityProvider.is_valid_redirect import_string self url s)
  = s.
Proof.
  rewrite is_valid_redirect_run. apply any_is_valid_redirect_session.
Qed.

(** One round of the loop of [logout]. *)
Lemma logout_loop_step (idp : IdentityProvider.t) (request : Request)
    (arg : string) (rest : list string) (s : Session) :
  logout_loop import_string idp request (arg :: rest) s =
    match params request !! arg with
    | None => logout_loop import_string idp request rest s
    | Some redirect_url =>
        if str_bool redirect_url then
          let v := IdentityProvider.is_valid_redirect import_string idp
                     redirect_url s in
          match outcome v with
          | Ok true => (Ok (RFound redirect_url), s, events v)
          | Ok false =>
              let x := logout_loop import_string idp request rest s in
              (outcome x, session_after x, events v ++ events x)
          | Raise e => (Raise e, s, events v)
          end
        else logout_loop import_string idp request rest s
    end.
Proof.
  simpl. destruct (params request !! arg) as [redirect_url |];
    [| reflexivity].
  destruct (str_bool redirect_url); [| reflexivity].
  unfold bind. cbv zeta.
  pose proof (is_valid_redirect_session idp redirect_url s) as Hs.
  destruct (IdentityProvider.is_valid_redirect import_string idp
              redirect_url s) as [[[b | e] s1] t1];
    rewrite session_after_mk in Hs; subst s1;
    rewrite outcome_mk, events_mk; [| reflexivity].
  destruct b.
  - unfold ret. rewrite app_nil_r. reflexivity.
  - destruct (logout_loop import_string idp request rest s) as [[r s2] t2].
    reflexivity.
Qed.

Lemma logout_loop_session (idp : IdentityProvider.t) (request : Request)
    (args : list string) (s : Session) :
  session_after (logout_loop import_string idp request args s) = s.
Proof.
  induction args as [| arg rest IH]; [reflexivity |].
  rewrite logout_loop_step.
  destruct (params request !! arg) as [redirect_url |]; [| exact IH].
  destruct (str_bool redirect_url); [| exact IH].
  cbv zeta.
  destruct (outcome (IdentityProvider.is_valid_redirect import_string idp
                       redirect_url s)) as [[|] | e];
    try reflexivity.
  rewrite session_after_mk. exact IH.
Qed.

(** A redirect of the loop goes to a supplied, non-empty, accepted target. *)
Lemma logout_loop_redirect (idp : IdentityProvider.t) (request : Request)
    (args : list string) (s : Session) (url : string) :
  outcome (logout_loop import_string idp request args s) = Ok (RFound url) ->
  exists arg,
    arg ∈ args /\ params request !! arg = Some url /\ url <> ""
    /\ outcome (IdentityProvider.is_valid_redirect import_string idp url s)
       = Ok true.
Proof.
  induction args as [| arg rest IH]; [discriminate |].
  rewrite logout_loop_step.
  assert (Hrest : outcome (logout_loop import_string idp request rest s)
                  = Ok (RFound url) ->
                  exists arg0,
                    arg0 ∈ arg :: rest /\ params request !! arg0 = Some url
                    /\ url <> ""
                    /\ outcome (IdentityProvider.is_valid_redirect
                                  import_string idp url s) = Ok true).
  { intros H. destruct (IH H) as (a & Ha & Hrest).
    exists a. split; [apply list_elem_of_further; exact Ha | exact Hrest]. }
  destruct (params request !! arg) as [redirect_url |] eqn:Hp;
    [| exact Hrest].
  destruct (str_bool redirect_url) eqn:Hb; [| exact Hrest].
  cbv zeta.
  destruct (outcome (IdentityProvider.is_valid_redirect import_string idp
                       redirect_url s)) as [[|] | e] eqn:Hv.
  - rewrite outcome_mk. intros [= <-].
    exists arg. split; [apply list_elem_of_here |].
    split; [exact Hp |]. split; [apply str_bool_true; exact Hb | exact Hv].
  - rewrite outcome_mk. exact Hrest.
  - discriminate.
Qed.

(** When the [logout] view redirects, the user was authenticated and has
    been logged out, and the location is the value of the [RelayState] or
    of the [redirect_to] parameter, non-empty, and accepted by
    [is_valid_redirect] on the session [idp.logout()] left. *)
Theorem logout_redirect_sound
    (request : Request) (s : Session) (url : string) :
  let run := logout import_string registry request s in
  outcome run = Ok (RFound url) ->
  exists s1,
    IdentityProvider.login_required_impl (saml2_idp_cls registry) request s
    = Ok tt
    /\ IdentityProvider.logout_impl (saml2_idp_cls registry) request s
       = Ok s1
    /\ session_after run = s1
    /\ (params request !! "RelayState" = Some url
        \/ params request !! "redirect_to" = Some url)
    /\ url <> ""
    /\ outcome (IdentityProvider.is_valid_redirect import_string
                  (new_idp registry request) url s1) = Ok true.
Proof.
  intros run H. subst run. rewrite logout_run in H |- *.
  destruct (IdentityProvider.login_required_impl
              (saml2_idp_cls registry) request s) as [[] | e];
    [| discriminate].
  destruct (IdentityProvider.logout_impl
              (saml2_idp_cls registry) request s) as [s1 | e];
    [| discriminate].
  cbv zeta in H |- *. rewrite outcome_mk in H. rewrite session_after_mk.
  destruct (logout_loop_redirect _ _ _ _ _ H)
    as (arg & Harg & Hp & Hne & Hv).
  exists s1. split; [reflexivity |]. split; [reflexivity |].
  split; [apply logout_loop_session |].
  split; [| split; assumption].
  apply elem_of_cons in Harg as [-> | Harg]; [left; exact Hp |].
  apply list_elem_of_singleton in Harg as ->. right. exact Hp.
Qed.

(** Which target the [logout] view takes, for an authenticated user whom
    [idp.logout()] logs out: a non-empty [RelayState] that is accepted wins
    whatever [redirect_to] holds, and an exception while it is checked ends
    the view; [redirect_to] is used only when [RelayState] is absent,
    empty or rejected. *)
Theorem logout_target_order
    (request : Request) (s s1 : Session) :
  let run := logout import_string registry request s in
  let accepted url :=
    outcome (IdentityProvider.is_valid_redirect import_string
               (new_idp registry request) url s1) in
  IdentityProvider.login_required_impl (saml2_idp_cls registry) request s
  = Ok tt ->
  IdentityProvider.logout_impl (saml2_idp_cls registry) request s = Ok s1 ->
  (forall url, params request !! "RelayState" = Some url -> url <> "" ->
     (accepted url = Ok true -> outcome run = Ok (RFound url))
     /\ (forall e, accepted url = Raise e -> outcome run = Raise e))
  /\ (forall url,
        params request !! "RelayState" = None
        \/ params request !! "RelayState" = Some ""
        \/ (exists relay, params request !! "RelayState" = Some relay
                          /\ accepted relay = Ok false) ->
        params request !! "redirect_to" = Some url -> url <> "" ->
        accepted url = Ok true ->
        outcome run = Ok (RFound url)).
Proof.
  intros run accepted Hlogin Hlogout. subst run accepted.
  rewrite logout_run, Hlogin, Hlogout. cbv zeta. rewrite outcome_mk.
  rewrite logout_loop_step.
  assert (Hsecond : forall url,
             params request !! "redirect_to" = Some url -> url <> "" ->
             outcome (IdentityProvider.is_valid_redirect import_string
                        (new_idp registry request) url s1) = Ok true ->
             outcome (logout_loop import_string (new_idp registry request)
                        request ["redirect_to"] s1) = Ok (RFound url)).
  { intros url Hp Hne Hv. rewrite logout_loop_step, Hp.
    apply str_bool_true in Hne. rewrite Hne. cbv zeta. rewrite Hv.
    reflexivity. }
  split.
  - intros url Hp Hne. rewrite Hp. apply str_bool_true in Hne.
    rewrite Hne. cbv zeta. split.
    + intros Hv. rewrite Hv. reflexivity.
    + intros e Hv. rewrite Hv. reflexivity.
  - intros url Hrelay Hp Hne Hv.
    destruct Hrelay as [Hr | [Hr | (relay & Hr & Hrej)]]; rewrite Hr.
    + apply Hsecond; assumption.
    + simpl str_bool. cbv iota. apply Hsecond; assumption.
    + destruct (str_bool relay); [| apply Hsecond; assumption].
      cbv zeta. rewrite Hrej, outcome_mk. apply Hsecond; assumption.
Qed.

(** Once [login_required] has returned and [idp.logout()] has replaced the
    session, that session is what the [logout] view leaves, however the
    view ends (a redirect, an exception of a handler, or the [NameError]
    of its last line): the checks of the redirect targets write nothing. *)
Theorem logout_view_session
    (request : Request) (s s1 : Session) :
  let run := logout import_string registry request s in
  IdentityProvider.login_required_impl (saml2_idp_cls registry) request s
  = Ok tt ->
  IdentityProvider.logout_impl (saml2_idp_cls registry) request s = Ok s1 ->
  session_after run = s1
  /\ EvLogout true ∈ events run.
Proof.
  intros run Hlogin Hlogout. subst run.
  rewrite logout_run, Hlogin, Hlogout. cbv zeta.
  rewrite session_after_mk, events_mk.
  split; [apply logout_loop_session |].
  apply list_elem_of_further. apply list_elem_of_here.
Qed.

End LogoutView.

(** ** The metadata view *)
Section MetadataView.
Variable certificate_to_string : pyval -> result string.

(** The [metadata] view sets the content type to XML and, when the
    certificate can be rendered, returns the IdP together with its entity
    id (the URL of the metadata route), the URLs of the login-begin and
    logout routes as SSO and SLO endpoints, the certificate text, no
    organisation and no contacts, and nothing else; when
    [certificate_to_string] raises, so does the view. *)
Theorem metadata_context
    (registry : views.Registry) (request : Request) :
  let r := Metadata.metadata certificate_to_string registry request in
  let certificate :=
    certificate_to_string
      (IdentityProvider.get_idp_certificate
         (views.new_idp registry request)) in
  Metadata.content_type r = "application/xml"
  /\ (forall e, certificate = Raise e -> Metadata.returned r = Raise e)
  /\ (forall c, certificate = Ok c ->
        exists d,
          Metadata.returned r = Ok d
          /\ d !! "idp" = Some (Metadata.CVal VIdp)
          /\ d !! "entity_id"
             = Some (Metadata.CVal
                       (VStr (route_url request "pyramid_saml2_idp_metadata")))
          /\ d !! "sso_url"
             = Some (Metadata.CVal
                       (VStr (route_url request
                                "pyramid_saml2_idp_login_begin")))
          /\ d !! "slo_url"
             = Some (Metadata.CVal
                       (VStr (route_url request "pyramid_saml2_idp_logout")))
          /\ d !! "certificate" = Some (Metadata.CVal (VStr c))
          /\ d !! "org" = Some (Metadata.CVal VNone)
          /\ d !! "contacts" = Some (Metadata.CList [])
          /\ dom d = list_to_set ["idp"; "entity_id"; "certificate";
                                  "slo_url"; "sso_url"; "org"; "contacts"]).
Proof.
  intros r certificate. subst r certificate.
  unfold Metadata.metadata, Metadata.get_metadata_context. cbv zeta.
  cbn [Metadata.content_type Metadata.returned].
  split; [reflexivity |]. split.
  - intros e ->. reflexivity.
  - intros c ->. unfold result_bind. eexists. split; [reflexivity |].
    repeat split; vm_compute; reflexivity.
Qed.

End MetadataView.

(** ** The example application *)
Section ExampleApplication.
Variable login_url : Request -> string.

Local Abbreviation example_cls :=
  (ExampleApp.ExampleIdentityProvider login_url) (only parsing).

Lemma is_user_logged_in_known (s : Session) :
  Example.is_user_logged_in s = true <->
  exists name u, s !! "user" = Some (VStr name)
                 /\ Example.users !! name = Some u.
Proof.
  unfold Example.is_user_logged_in.
  destruct (s !! "user") as [[| | name | | |] |]; simpl;
    try (split; [discriminate | intros (n & u & H & _); discriminate]).
  rewrite bool_decide_eq_true. split.
  - intros [u Hu]. eauto.
  - intros (n & u & [= <-] & Hu). eauto.
Qed.

(** [LoginView.post] stores the posted user name under ['user'] and
    redirects to [next]. A name of the user table is then logged in:
    [login_required] returns and [get_current_user] gives that user. Any
    other name is stored all the same, and [login_required] keeps
    redirecting to the login page. *)
Theorem login_view_post_logs_in
    (request request' : Request) (s : Session) (user next : string) :
  let run := ExampleApp.LoginView_post request s in
  let s' := session_after run in
  params request !! "user" = Some user ->
  params request !! "next" = Some next ->
  run = (Ok (views.RFound next), <["user" := VStr user]> s, [])
  /\ (forall u, Example.users !! user = Some u ->
        IdentityProvider.login_required_impl example_cls request' s' = Ok tt
        /\ IdentityProvider.get_current_user_impl example_cls request' s'
           = Ok u)
  /\ (Example.users !! user = None ->
        s' !! "user" = Some (VStr user)
        /\ IdentityProvider.login_required_impl example_cls request' s'
           = Raise (HTTPFound_exc (login_url request'))).
Proof.
  intros run s' Huser Hnext.
  assert (Hrun : run = (Ok (views.RFound next), <["user" := VStr user]> s,
                        [])).
  { subst run. unfold ExampleApp.LoginView_post. rewrite Huser, Hnext.
    reflexivity. }
  subst s'. rewrite Hrun, session_after_mk.
  split; [reflexivity |].
  cbn [IdentityProvider.login_required_impl
       IdentityProvider.get_current_user_impl
       ExampleApp.ExampleIdentityProvider].
  unfold Example.is_user_logged_in. rewrite lookup_insert_eq.
  split.
  - intros u Hu. rewrite Hu.
    rewrite bool_decide_eq_true_2 by eauto. split; reflexivity.
  - intros Hnone. split; [reflexivity |].
    rewrite bool_decide_eq_false_2; [reflexivity |].
    rewrite Hnone. intros [u Hu]. discriminate.
Qed.

(** [LoginView.post] reads both parameters before it writes: with [user]
    or [next] missing it raises [KeyError] and the session is as it was. *)
Theorem login_view_post_missing_parameter
    (request : Request) (s : Session) :
  params request !! "user" = None \/ params request !! "next" = None ->
  exists e,
    outcome (ExampleApp.LoginView_post request s) = Raise e
    /\ exn_class e = "KeyError"
    /\ session_after (ExampleApp.LoginView_post request s) = s.
Proof.
  unfold ExampleApp.LoginView_post. intros [H | H].
  - rewrite H. eexists. split; [reflexivity |]. split; reflexivity.
  - destruct (params request !! "user"); rewrite ?H;
      eexists; (split; [reflexivity |]); split; reflexivity.
Qed.

(** In the example application, whenever [login_required] returns,
    [logout] cannot fail: it removes the key ['user'] and nothing else
    (a captured SAMLRequest stays), and afterwards [login_required]
    redirects to the login page. Without the key ['user'], [logout]
    raises [KeyError]. *)
Theorem example_logout_logs_out
    (request request' : Request) (s : Session) :
  (IdentityProvider.login_required_impl example_cls request s = Ok tt ->
     IdentityProvider.logout_impl example_cls request s
     = Ok (delete "user" s)
     /\ (forall key, key <> "user" -> delete "user" s !! key = s !! key)
     /\ IdentityProvider.is_user_logged_in_impl example_cls request'
          (delete "user" s) = Ok false
     /\ IdentityProvider.login_required_impl example_cls request'
          (delete "user" s) = Raise (HTTPFound_exc (login_url request')))
  /\ (s !! "user" = None ->
        IdentityProvider.logout_impl example_cls request s
        = Raise (KeyError "'user'")).
Proof.
  cbn [IdentityProvider.login_required_impl IdentityProvider.logout_impl
       IdentityProvider.is_user_logged_in_impl
       ExampleApp.ExampleIdentityProvider].
  split.
  - intros H.
    destruct (Example.is_user_logged_in s) eqn:Hin; [| discriminate].
    apply is_user_logged_in_known in Hin as (name & u & Hs & _).
    rewrite Hs.
    assert (Hout : Example.is_user_logged_in (delete "user" s) = false).
    { unfold Example.is_user_logged_in. rewrite lookup_delete_eq.
      reflexivity. }
    rewrite Hout. repeat split.
    intros key Hkey. apply lookup_delete_ne. congruence.
  - intros ->. reflexivity.
Qed.

End ExampleApplication.

(** ** The further properties on the example application *)

Lemma views_require_authentication_witness :
  let login_url (_ : Request) :=
    "http://localhost:8000/login?next=http%3A%2F%2Flocalhost%3A8000%2Fsaml%2Flogin%2Fprocess%2F" in
  let registry :=
    {| views.saml2_idp_cls := ExampleApp.ExampleIdentityProvider login_url;
       views.registry_settings := views.registry_settings Example.registry |}
  in
  views.login_process Example.import_string registry
    (Example.request_with ∅) ∅
  = (Raise (HTTPFound_exc (login_url (Example.request_with ∅))), ∅,
     [EvLoginRequired false])
  /\ views.logout Example.import_string registry (Example.request_with ∅) ∅
     = (Raise (HTTPFound_exc (login_url (Example.request_with ∅))), ∅,
        [EvLoginRequired false]).
Proof.
  cbv zeta.
  apply (views_require_authentication Example.import_string _
           (Example.request_with ∅) ∅).
  vm_compute. reflexivity.
Defined.

(** A constructor failure with a [ValueError] is not taken for a handler
    that falls through. *)
Lemma login_process_construction_error_witness :
  let import_string path :=
    if String.eqb path "examples.idp.RejectingSPHandler"
    then Example.import_string path
    else Raise (ValueError path) in
  let registry :=
    Example.registry_with (Example.idp_config None None)
      [Example.sp "examples.idp.RejectingSPHandler" "" "";
       Example.sp_example] in
  views.caught (ValueError "examples.idp.AttributeSPHandler") = true
  /\ outcome (views.login_process import_string registry
               (Example.request_with ∅)
               (Example.captured Example.sp_issuer "relay"))
     = Raise (ValueError "examples.idp.AttributeSPHandler").
Proof.
  cbv zeta. split; [reflexivity |].
  refine (proj1 (login_process_construction_error _ _
                   (Example.request_with ∅)
                   (Example.captured Example.sp_issuer "relay")
                   (VStr Example.sp_issuer) (VStr "relay") 1
                   (ValueError "examples.idp.AttributeSPHandler")
                   _ _ _ _ _)); try (vm_compute; reflexivity).
  intros m Hm. destruct m as [| m]; [| lia].
  eexists. split; [reflexivity |].
  eexists _, _. split; [reflexivity |]. split; reflexivity.
Defined.

Lemma unsupported_nameid_aborts_resolution_witness :
  let e := NotImplementedError
             ("Can't fetch attribute " +:+ Example.persistent_urn
              +:+ " from user") in
  let import_string (path : string)
      : result IdentityProvider.handler_class :=
    Ok (fun _ _ _ => Ok (Example.failing_handler e)) in
  let registry :=
    Example.registry_with (Example.idp_config None None)
      [Example.sp_example; Example.sp_example] in
  outcome (views.login_process import_string registry
             (Example.request_with ∅)
             (Example.captured Example.sp_issuer "relay"))
  = Raise e
  /\ events (views.login_process import_string registry
               (Example.request_with ∅)
               (Example.captured Example.sp_issuer "relay"))
     = [EvLoginRequired true; EvConstruct 0 true; EvCall 0 MParse false].
Proof.
  cbv zeta. split; [| vm_compute; reflexivity].
  refine (proj1 (proj2 (proj2
            (unsupported_nameid_aborts_resolution _ _
               (Example.request_with ∅)
               (Example.captured Example.sp_issuer "relay")
               (VStr Example.sp_issuer) (VStr "relay") 0
               (Example.failing_handler _) Example.alex
               Example.persistent_urn _ _ _ _ _ _ _ _))));
    try (vm_compute; reflexivity).
  intros m Hm. lia.
Defined.

Lemma login_process_context_origin_witness :
  exists context,
    outcome (views.login_process Example.import_string Example.registry3
               (Example.request_with ∅)
               (Example.captured Example.sp_issuer "relay"))
    = Ok (views.RContext (with_idp context))
    /\ with_idp context !! "idp" = Some VIdp.
Proof.
  assert (H : outcome (views.login_process Example.import_string
                         Example.registry3 (Example.request_with ∅)
                         (Example.captured Example.sp_issuer "relay"))
              = Ok (views.RContext
                      (with_idp
                         (<["acs_url" := VStr Example.sp_acs]>
                            (<["saml_response" := VStr "<Response/>"]>
                               (<["relay_state" := VStr "relay"]> ∅))))))
    by (vm_compute; reflexivity).
  destruct (login_process_context_origin Example.import_string
              Example.registry3 (Example.request_with ∅)
              (Example.captured Example.sp_issuer "relay") _ H)
    as (a & b & i & h & context & _ & _ & _ & _ & _ & Hd & _).
  eexists. split; [exact H |]. vm_compute. reflexivity.
Defined.

Lemma login_begin_frame_witness :
  session_after
    (views.login_begin
       (Example.request_with (<["SAMLRequest" := Example.sp_issuer]> ∅))
       Example.logged_in) !! "user"
  = Some (VStr "alex").
Proof.
  refine (eq_trans
            (login_begin_frame
               (Example.request_with
                  (<["SAMLRequest" := Example.sp_issuer]> ∅))
               Example.logged_in "user" _ _) _).
  - discriminate.
  - discriminate.
  - vm_compute. reflexivity.
Defined.

Lemma login_begin_then_process_witness :
  let s' :=
    session_after
      (views.login_begin
         (Example.request_with (<["SAMLRequest" := Example.sp_issuer]> ∅))
         Example.logged_in) in
  views.login_process Example.import_string Example.registry
    (Example.request_with ∅) s'
  = (let x := views.login_process_loop 0
                (IdentityProvider.get_sp_handlers Example.import_string
                   (views.new_idp Example.registry (Example.request_with ∅))
                   s')
                (VStr Example.sp_issuer) (VStr "") s' in
     (outcome x, session_after x, EvLoginRequired true :: events x)).
Proof.
  cbv zeta.
  refine (proj1 (login_begin_then_process Example.import_string
                   Example.registry
                   (Example.request_with
                      (<["SAMLRequest" := Example.sp_issuer]> ∅))
                   (Example.request_with ∅) Example.logged_in
                   Example.sp_issuer _ _ _)).
  - vm_compute. reflexivity.
  - discriminate.
  - vm_compute. reflexivity.
Defined.

Lemma is_valid_redirect_first_answer_witness :
  outcome (IdentityProvider.is_valid_redirect Example.import_string
             (views.new_idp Example.registry3 (Example.request_with ∅))
             Example.sp_acs ∅)
  = Ok true.
Proof.
  refine (eq_trans
            (proj1 (is_valid_redirect_first_answer Example.import_string
                      (views.new_idp Example.registry3
                         (Example.request_with ∅))
                      Example.sp_acs ∅ 1
                      (Ok (Example.accepting_handler Example.sp_issuer
                             Example.sp_acs)) _ _ _)) _).
  - vm_compute. reflexivity.
  - intros m Hm. destruct m as [| m]; [| lia].
    eexists. split; [reflexivity |]. eexists. split; reflexivity.
  - vm_compute. discriminate.
  - vm_compute. reflexivity.
Defined.

Lemma logout_redirect_sound_witness :
  outcome (views.logout Example.import_string Example.registry
             (Example.request_with (<["redirect_to" := Example.sp_acs]> ∅))
             Example.logged_in)
  = Ok (views.RFound Example.sp_acs)
  /\ exists s1,
       IdentityProvider.logout_impl (views.saml2_idp_cls Example.registry)
         (Example.request_with (<["redirect_to" := Example.sp_acs]> ∅))
         Example.logged_in = Ok s1
       /\ session_after
            (views.logout Example.import_string Example.registry
               (Example.request_with
                  (<["redirect_to" := Example.sp_acs]> ∅))
               Example.logged_in) = s1.
Proof.
  assert (H : outcome (views.logout Example.import_string Example.registry
                         (Example.request_with
                            (<["redirect_to" := Example.sp_acs]> ∅))
                         Example.logged_in)
              = Ok (views.RFound Example.sp_acs))
    by (vm_compute; reflexivity).
  split; [exact H |].
  destruct (logout_redirect_sound Example.import_string Example.registry
              (Example.request_with (<["redirect_to" := Example.sp_acs]> ∅))
              Example.logged_in Example.sp_acs H)
    as (s1 & _ & Hlogout & Hsession & _).
  exists s1. split; [exact Hlogout | exact Hsession].
Defined.

Lemma logout_target_order_witness :
  outcome (views.logout Example.import_string Example.registry
             (Example.request_with
                (<["RelayState" := Example.sp_acs]>
                   (<["redirect_to" := "http://elsewhere.example/"]> ∅)))
             Example.logged_in)
  = Ok (views.RFound Example.sp_acs).
Proof.
  refine (proj1 (proj1 (logout_target_order Example.import_string
                          Example.registry
                          (Example.request_with
                             (<["RelayState" := Example.sp_acs]>
                                (<["redirect_to" :=
                                     "http://elsewhere.example/"]> ∅)))
                          Example.logged_in ∅ _ _)
                   Example.sp_acs _ _) _).
  - vm_compute. reflexivity.
  - vm_compute. reflexivity.
  - vm_compute. reflexivity.
  - discriminate.
  - vm_compute. reflexivity.
Defined.

Lemma logout_view_session_witness :
  session_after
    (views.logout Example.import_string Example.registry
       (Example.request_with ∅)
       (Example.captured Example.sp_issuer "relay"))
  = delete "user" (Example.captured Example.sp_issuer "relay").
Proof.
  refine (proj1 (logout_view_session Example.import_string Example.registry
                   (Example.request_with ∅)
                   (Example.captured Example.sp_issuer "relay")
                   (delete "user" (Example.captured Example.sp_issuer "relay"))
                   _ _)).
  - vm_compute. reflexivity.
  - vm_compute. reflexivity.
Defined.

Lemma login_view_post_logs_in_witness :
  let request :=
    Example.request_with
      (<["user" := "alex"]> (<["next" := "/saml/login/process/"]> ∅)) in
  IdentityProvider.login_required_impl
    (ExampleApp.ExampleIdentityProvider (fun r => route_url r "login_view"))
    (Example.request_with ∅)
    (session_after (ExampleApp.LoginView_post request ∅))
  = Ok tt.
Proof.
  cbv zeta.
  refine (proj1 (proj1 (proj2
            (login_view_post_logs_in (fun r => route_url r "login_view")
               (Example.request_with
                  (<["user" := "alex"]>
                     (<["next" := "/saml/login/process/"]> ∅)))
               (Example.request_with ∅) ∅ "alex" "/saml/login/process/"
               _ _)) Example.alex _)).
  - vm_compute. reflexivity.
  - vm_compute. reflexivity.
  - vm_compute. reflexivity.
Defined.

Lemma login_view_post_missing_parameter_witness :
  exists e,
    outcome (ExampleApp.LoginView_post
               (Example.request_with (<["user" := "alex"]> ∅)) ∅)
    = Raise e
    /\ exn_class e = "KeyError"
    /\ session_after
         (ExampleApp.LoginView_post
            (Example.request_with (<["user" := "alex"]> ∅)) ∅) = ∅.
Proof.
  apply (login_view_post_missing_parameter
           (Example.request_with (<["user" := "alex"]> ∅)) ∅).
  right. vm_compute. reflexivity.
Defined.

Lemma login_process_error_strings_witness :
  ("SAMLRequest is misssing" = "SAMLRequest is misssing"
   /\ Example.logged_in !! "SAMLRequest" = None)
  \/ ("SAMLRequest is misssing" = "RelayState is missing"
      /\ is_Some (Example.logged_in !! "SAMLRequest")
      /\ Example.logged_in !! "RelayState" = None).
Proof.
  apply (proj1 (login_process_error_strings Example.import_string
                  Example.registry (Example.request_with ∅)
                  Example.logged_in)).
  vm_compute. reflexivity.
Defined.

Lemma login_begin_last_capture_wins_witness :
  session_after
    (views.login_begin
       (Example.request_with (<["SAMLRequest" := "second"]> ∅))
       (session_after
          (views.login_begin
             (Example.request_with
                (<["SAMLRequest" := "first"]>
                   (<["RelayState" := "relay"]> ∅)))
             Example.logged_in)))
  = Example.captured "second" "".
Proof.
  refine (eq_trans
            (proj1 (login_begin_last_capture_wins
                      (Example.request_with
                         (<["SAMLRequest" := "first"]>
                            (<["RelayState" := "relay"]> ∅)))
                      (Example.request_with
                         (<["SAMLRequest" := "second"]> ∅))
                      Example.logged_in) "second" _ _) _).
  - vm_compute. reflexivity.
  - discriminate.
  - vm_compute. reflexivity.
Defined.

Lemma is_valid_redirect_false_iff_witness :
  length (IdentityProvider.get_sp_handlers Example.import_string
            (views.new_idp Example.registry3 (Example.request_with ∅)) ∅)
  = 3
  /\ IdentityProvider.is_valid_redirect Example.import_string
       (views.new_idp Example.registry3 (Example.request_with ∅))
       "http://elsewhere.example/" ∅
     = (Ok false, ∅,
        [EvConstruct 0 true; EvCall 0 MIsValidRedirect true;
         EvConstruct 1 true; EvCall 1 MIsValidRedirect true;
         EvConstruct 2 true; EvCall 2 MIsValidRedirect true])
  /\ outcome (IdentityProvider.is_valid_redirect Example.import_string
                (views.new_idp Example.registry3 (Example.request_with ∅))
                "http://elsewhere.example/" ∅)
     = Ok false
  /\ Forall (rejects_redirect Example.sp_acs)
       (IdentityProvider.get_sp_handlers Example.import_string
          (views.new_idp
             (Example.registry_with (Example.idp_config None None)
                [Example.sp "examples.idp.RejectingSPHandler" "" "";
                 Example.sp "examples.idp.BrokenSPHandler" "" ""])
             (Example.request_with ∅)) ∅).
Proof.
  split; [reflexivity |]. split; [vm_compute; reflexivity |]. split.
  - apply (proj2 (is_valid_redirect_false_iff Example.import_string
                    (views.new_idp Example.registry3
                       (Example.request_with ∅))
                    "http://elsewhere.example/" ∅)).
    repeat (apply Forall_cons; split;
            [eexists; split; reflexivity |]).
    apply Forall_nil_2.
  - apply (proj1 (is_valid_redirect_false_iff Example.import_string
                    (views.new_idp
                       (Example.registry_with (Example.idp_config None None)
                          [Example.sp "examples.idp.RejectingSPHandler" "" "";
                           Example.sp "examples.idp.BrokenSPHandler" "" ""])
                       (Example.request_with ∅))
                    Example.sp_acs ∅)).
    vm_compute. reflexivity.
Defined.

Lemma is_valid_redirect_true_iff_witness :
  exists n handler,
    IdentityProvider.get_sp_handlers Example.import_string
      (views.new_idp Example.registry (Example.request_with ∅)) ∅ !! n
    = Some (Ok handler)
    /\ SPHandler.is_valid_redirect handler Example.sp_acs = Ok true.
Proof.
  destruct (proj1 (is_valid_redirect_true_iff Example.import_string
                     (views.new_idp Example.registry
                        (Example.request_with ∅))
                     Example.sp_acs ∅))
    as (n & handler & Hn & Hans & _).
  - vm_compute. reflexivity.
  - exists n, handler. split; [exact Hn | exact Hans].
Defined.

Lemma metadata_context_witness :
  Metadata.returned
    (Metadata.metadata
       (fun v => match v with
                 | VCert pem => Ok pem
                 | _ => Raise (Exn "TypeError" builtin_bases "")
                 end)
       (Example.registry_with (Example.idp_config None None) [])
       (Example.request_with ∅))
  = Raise (Exn "TypeError" builtin_bases "").
Proof.
  apply (proj1 (proj2 (metadata_context _ _ _))).
  vm_compute. reflexivity.
Defined.

Lemma example_logout_logs_out_witness :
  IdentityProvider.logout_impl
    (ExampleApp.ExampleIdentityProvider (fun r => route_url r "login_view"))
    (Example.request_with ∅) Example.logged_in
  = Ok (delete "user" Example.logged_in).
Proof.
  apply (proj1 (example_logout_logs_out
                  (fun r => route_url r "login_view")
                  (Example.request_with ∅) (Example.request_with ∅)
                  Example.logged_in)).
  vm_compute. reflexivity.
Defined.

(** ** First match wins *)
Section FirstMatch.
Import views.

Variable import_string : string -> result IdentityProvider.handler_class.
Variable registry : Registry.

(** C1, as amended: on a captured SAMLRequest/RelayState pair, if the
    handler at position [i] of the configured sequence completes its trial
    ([parse_authn_request], then [make_response], then
    [get_response_context]) without raising, and each handler before
    position [i] is yielded and fails its trial with
    [CannotHandleAssertion] or a [ValueError], then [login_process] returns
    that handler's response context (under the added ["idp"] entry), the
    handlers before position [i] were each tried and logged, and no handler
    after position [i] is constructed or called. *)
Theorem login_process_first_match_wins
    (request : Request) (s : Session) (saml_request relay_state : pyval)
    (i : nat) (handler : SPHandler.t) (context : gmap string pyval) :
  let run := login_process import_string registry request s in
  let handlers :=
    IdentityProvider.get_sp_handlers import_string
      (new_idp registry request) s in
  IdentityProvider.login_required_impl (saml2_idp_cls registry) request s
  = Ok tt ->
  s !! "SAMLRequest" = Some saml_request ->
  s !! "RelayState" = Some relay_state ->
  handlers !! i = Some (Ok handler) ->
  trial_result handler saml_request relay_state = Ok context ->
  (forall j, j < i ->
     exists handler_j e,
       handlers !! j = Some (Ok handler_j)
       /\ trial_result handler_j saml_request relay_state = Raise e
       /\ (isinstance e "CannotHandleAssertion" = true
           \/ isinstance e "ValueError" = true)) ->
  outcome run = Ok (RContext (with_idp context))
  /\ (forall key v, context !! key = Some v ->
                    with_idp context !! key = Some v)
  /\ EvCall i MGetResponseContext true ∈ events run
  /\ (forall j, j < i -> EvLogException j ∈ events run)
  /\ (forall ev j, ev ∈ events run -> event_handler ev = Some j -> j <= i).
Proof.
  intros run handlers Hlogin Hsaml Hrelay Hr Ht Hbefore. subst run.
  assert (Hpre : prefix_falls_through handlers saml_request relay_state i).
  { intros j Hj. destruct (Hbefore j Hj) as (hj & e & Hrj & Htj & Hc).
    exists (Ok hj). split; [exact Hrj |]. exists hj, e.
    split; [reflexivity |]. split; [exact Htj |].
    unfold caught. apply orb_true_iff. exact Hc. }
  rewrite login_process_run, Hlogin, Hsaml, Hrelay. cbv zeta.
  fold handlers.
  destruct (login_process_loop_skip saml_request relay_state i handlers 0
              Hpre) as (pre & Hbound & Hlogged & Heq).
  simpl in Hbound, Hlogged, Heq. rewrite (drop_S _ _ _ Hr) in Heq.
  rewrite Heq, login_process_loop_yield, Ht. cbv zeta.
  rewrite !outcome_mk, !events_mk.
  split; [reflexivity |]. split; [| split; [| split]].
  - intros key v Hkey. unfold with_idp.
    apply lookup_union_Some_l. exact Hkey.
  - apply list_elem_of_further. apply elem_of_app. right.
    apply list_elem_of_further.
    apply trial_log_completed. split; [reflexivity |]. eauto.
  - intros j Hj. apply list_elem_of_further. apply elem_of_app. left.
    apply Hlogged. exact Hj.
  - intros ev j H Hj. apply elem_of_cons in H as [-> | H];
      [discriminate |].
    apply elem_of_app in H as [H | H].
    + destruct (Hbound _ H) as (j' & Hj' & Hlt).
      rewrite Hj in Hj'. injection Hj' as <-. lia.
    + apply elem_of_cons in H as [-> | H].
      * simpl in Hj. injection Hj as <-. lia.
      * apply trial_log_handler in H. rewrite Hj in H.
        injection H as <-. lia.
Qed.

End FirstMatch.

(** C1, as stated, fails: with a handler whose parser breaks with a
    [KeyError] registered before the example's handler, the example's
    handler is the first whose trial completes without raising, yet
    [login_process] raises the [KeyError] instead of returning that
    handler's context, the handler is never tried, and the handler before
    it failed with an exception that is neither a [CannotHandleAssertion]
    nor a [ValueError]. *)
Lemma login_process_first_match_needs_fallthrough :
  let s := Example.captured Example.sp_issuer "relay" in
  let run := views.login_process Example.import_string
               Example.registry_broken_first (Example.request_with ∅) s in
  let handlers :=
    IdentityProvider.get_sp_handlers Example.import_string
      (views.new_idp Example.registry_broken_first (Example.request_with ∅))
      s in
  (exists handler_0 e,
     handlers !! 0 = Some (Ok handler_0)
     /\ views.trial_result handler_0 (VStr Example.sp_issuer) (VStr "relay")
        = Raise e
     /\ isinstance e "CannotHandleAssertion" = false
     /\ isinstance e "ValueError" = false
     /\ outcome run = Raise e)
  /\ (exists handler_1 context,
        handlers !! 1 = Some (Ok handler_1)
        /\ views.trial_result handler_1 (VStr Example.sp_issuer)
             (VStr "relay") = Ok context
        /\ outcome run <> Ok (views.RContext (with_idp context)))
  /\ events run
     = [EvLoginRequired true; EvConstruct 0 true; EvCall 0 MParse false].
Proof.
  cbv zeta. split; [| split].
  - eexists _, _. split; [reflexivity |]. split; [reflexivity |].
    split; [reflexivity |]. split; [reflexivity |]. vm_compute. reflexivity.
  - eexists _, _. split; [reflexivity |]. split; [reflexivity |].
    vm_compute. discriminate.
  - vm_compute. reflexivity.
Qed.

Lemma login_process_first_match_wins_witness :
  let s := Example.captured Example.sp_issuer "relay" in
  let run := views.login_process Example.import_string Example.registry3
               (Example.request_with ∅) s in
  outcome run
  = Ok (views.RContext
          (with_idp (<["acs_url" := VStr Example.sp_acs]>
                       (<["saml_response" := VStr "<Response/>"]>
                          (<["relay_state" := VStr "relay"]> ∅)))))
  /\ EvCall 1 MGetResponseContext true ∈ events run
  /\ EvLogException 0 ∈ events run
  /\ events run
     = [EvLoginRequired true;
        EvConstruct 0 true; EvCall 0 MParse false; EvLogException 0;
        EvConstruct 1 true; EvCall 1 MParse true; EvCall 1 MMakeResponse true;
        EvCall 1 MGetResponseContext true].
Proof.
  cbv zeta.
  assert (Hbefore : forall j, j < 1 ->
            exists handler_j e,
              IdentityProvider.get_sp_handlers Example.import_string
                (views.new_idp Example.registry3 (Example.request_with ∅))
                (Example.captured Example.sp_issuer "relay") !! j
              = Some (Ok handler_j)
              /\ views.trial_result handler_j (VStr Example.sp_issuer)
                   (VStr "relay") = Raise e
              /\ (isinstance e "CannotHandleAssertion" = true
                  \/ isinstance e "ValueError" = true)).
  { intros j Hj. destruct j as [| j]; [| lia].
    eexists _, _. split; [reflexivity |]. split; [reflexivity |].
    left. reflexivity. }
  destruct (login_process_first_match_wins Example.import_string
              Example.registry3 (Example.request_with ∅)
              (Example.captured Example.sp_issuer "relay")
              (VStr Example.sp_issuer) (VStr "relay") 1
              (Example.accepting_handler Example.sp_issuer Example.sp_acs)
              _ eq_refl eq_refl eq_refl eq_refl eq_refl Hbefore)
    as (Hout & _ & Hdone & Hlogged & _).
  split; [exact Hout |]. split; [exact Hdone |].
  split; [apply Hlogged; lia |]. vm_compute. reflexivity.
Defined.
